(** * kitty/gl.h: the OpenGL binding layer of kitty, embedded in Rocq

    The C file exposes one [PyCFunction] per OpenGL entry point.  Each of
    them decodes its Python arguments, issues the native call (sometimes
    with the interpreter lock released), optionally runs the error
    translator and builds a Python result.

    The embedding is a state-and-early-return monad over a [world] that
    holds the static flag [_enable_error_checking], CPython's error
    indicator and a trace of everything the function did to the outside
    (native calls, lock release and re-acquisition, raw memory
    allocations, work of its own on a raw block, the death of the
    process).  What the outside answers (the driver, the extension
    loader, the allocator) is a parameter [Env]: theorems quantify over it. *)

From Stdlib Require Import ZArith List String Ascii Bool Lia.
From Stdlib Require Import Strings.Byte DecimalString HexadecimalString.
Import ListNotations.
Local Open Scope string_scope.
Local Open Scope Z_scope.
Set Warnings "-register-all".

(** ** C integer types (LP64) *)

Module CInt.

Definition UINT_MOD : Z := 2 ^ 32.
Definition ULONG_MOD : Z := 2 ^ 64.
Definition INT_MIN : Z := - 2 ^ 31.
Definition INT_MAX : Z := 2 ^ 31 - 1.
Definition LONG_MIN : Z := - 2 ^ 63.
Definition LONG_MAX : Z := 2 ^ 63 - 1.
Definition ULONG_MAX : Z := 2 ^ 64 - 1.
Definition PY_SSIZE_T_MAX : Z := 2 ^ 63 - 1.

(** Conversion to [unsigned int] / [GLuint] / [GLenum] / [GLbitfield]. *)
Definition to_uint (z : Z) : Z := z mod UINT_MOD.
(** Conversion to [unsigned long] / [size_t]. *)
Definition to_ulong (z : Z) : Z := z mod ULONG_MOD.
(** Conversion to [int] / [GLint] / [GLsizei] (two's complement). *)
Definition to_int (z : Z) : Z := (z + 2 ^ 31) mod UINT_MOD - 2 ^ 31.

End CInt.
Import CInt.

(** ** Python values and exceptions *)

Inductive exc : Type :=
| PyExc_ValueError | PyExc_TypeError | PyExc_MemoryError
| PyExc_OverflowError | PyExc_RuntimeError | PyExc_SystemError.

(** A C [double] / [float] is carried as a token: either the bits of a
    Python float or the integer it was converted from. *)
Inductive cfloat : Type :=
| FromDouble (bits : Z)
| FromInt (z : Z).

Inductive PyObject : Type :=
| Py_None
| PyLong (z : Z)                 (* int; True and False are PyLong 1 and 0 *)
| PyFloat (bits : Z)
| PyBytes (b : list byte)
| PyUnicode (s : string)
| PyTuple (items : list PyObject).

(** What a [PyObject*]-returning C function returns: [None] is NULL. *)
Definition PyRet : Type := option PyObject.

Definition pyerr : Type := (exc * string)%type.

(** Arguments of a native call as they are passed. *)
Inductive carg : Type :=
| CInt (z : Z)
| CFloat (f : cfloat)
| CPtr (p : Z)
| CStr (s : string).

Inductive event : Type :=
| Call (f : string) (args : list carg)   (* a native / loader call *)
| SaveThread                             (* Py_BEGIN_ALLOW_THREADS *)
| RestoreThread                          (* Py_END_ALLOW_THREADS *)
| MemAlloc (p : Z) (nbytes : Z)          (* PyMem_Malloc / PyMem_Calloc, p <> 0 *)
| MemFree (p : Z)                        (* PyMem_Free *)
| HostMemory (p : Z) (contents : Z -> byte)
    (* C code of the layer itself worked on the block at p and left the
       bytes [contents], indexed by offset from p *)
| Crash.                                 (* the process dies *)

(** [trace] lists events newest first. *)
Record world : Type := World {
  _enable_error_checking : bool;
  error_indicator : option pyerr;
  trace : list event;
  allocs : nat                   (* allocation requests made so far *)
}.

(** The state the C file starts in: [static int _enable_error_checking = 1]. *)
Definition module_load : world :=
  {| _enable_error_checking := true; error_indicator := None;
     trace := []; allocs := 0 |}.

Definition set_flag (b : bool) (w : world) : world :=
  {| _enable_error_checking := b; error_indicator := error_indicator w;
     trace := trace w; allocs := allocs w |}.
Definition set_err (e : option pyerr) (w : world) : world :=
  {| _enable_error_checking := _enable_error_checking w; error_indicator := e;
     trace := trace w; allocs := allocs w |}.
Definition emit (e : event) (w : world) : world :=
  {| _enable_error_checking := _enable_error_checking w;
     error_indicator := error_indicator w;
     trace := e :: trace w; allocs := allocs w |}.
Definition bump (w : world) : world :=
  {| _enable_error_checking := _enable_error_checking w;
     error_indicator := error_indicator w;
     trace := trace w; allocs := S (allocs w) |}.

(** The environment of the layer: driver, extension loader, allocator and
    build configuration.  The driver answers as a function of the history
    of events before the call. *)
Record Env : Type := {
  (* build configuration *)
  APPLE : bool;                          (* __APPLE__ *)
  HAVE_glNamedBufferData : bool;         (* #ifdef glNamedBufferData *)
  HAVE_glCopyImageSubData : bool;        (* defined(glCopyImageSubData) *)
  (* extension loader *)
  glewInit_result : list event -> Z;
  glewGetErrorString : Z -> string;
  GLEW_ARB_texture_storage : bool;
  GLEW_ARB_texture_buffer_object_rgb32 : bool;
  GLEW_ARB_copy_image : bool;
  GLEW_VERSION_4_5 : bool;
  (* driver *)
  glGetError_result : list event -> Z;
  glGetString_result : list event -> Z -> option (list byte);
  glCreateProgram_result : list event -> Z;
  glCreateShader_result : list event -> Z -> Z;
  (* value left in [*params] by glGet...iv, given the value it held *)
  glGetiv_result : list event -> string -> list Z -> Z -> Z;
  glGetLocation_result : list event -> string -> Z -> string -> Z;
  (* (value left in [*length], bytes left in the buffer) *)
  glGetInfoLog_result : list event -> string -> Z -> Z -> Z -> (nat -> byte)
                        -> Z * (nat -> byte);
  (* contents of the array after glGen...(n, arrays) *)
  glGen_result : list event -> string -> Z -> (nat -> Z) -> nat -> Z;
  (* host allocator: does the k-th request succeed, and for raw memory at
     which address *)
  alloc_ok : nat -> bool;
  alloc_addr : nat -> Z;
  (* contents, by offset, of the block given to glGetTexImage after the call *)
  glGetTexImage_result : list event -> Z -> byte;
  (* host: the number protocol ([__index__], in older versions [__int__])
     on an object that is no int raises or gives an int; which one, and
     with which message, depends on the object and on the CPython version *)
  nb_int : PyObject -> pyerr + Z;
  (* host: does PyErr_Occurred read the thread state without testing it
     (CPython 3.9 and later) *)
  PyErr_Occurred_needs_thread_state : bool
}.

(** ** The monad of a C function body

    [inl a] continues with [a]; [inr r] means the function executed
    [return r]. *)

Definition Py (A : Type) : Type := world -> (A + PyRet) * world.

Definition ret {A} (a : A) : Py A := fun w => (inl a, w).
Definition bind {A B} (m : Py A) (k : A -> Py B) : Py B :=
  fun w => match m w with
           | (inl a, w') => k a w'
           | (inr r, w') => (inr r, w')
           end.
Definition return_ {A} (r : PyRet) : Py A := fun w => (inr r, w).

Notation "x <- m ;; k" := (bind m (fun x => k))
  (at level 61, m at next level, right associativity).
Notation "m ;; k" := (bind m (fun _ => k))
  (at level 61, right associativity).

(** A complete function: whatever way the body ends, it has returned. *)
Definition cfun : Type := world -> PyRet * world.
Definition body (m : Py PyRet) : cfun :=
  fun w => match m w with
           | (inl r, w') => (r, w')
           | (inr r, w') => (r, w')
           end.

Definition get_world : Py world := fun w => (inl w, w).
Definition tell (e : event) : Py unit := fun w => (inl tt, emit e w).

(** ** The CPython API the file uses *)

Definition PyErr_SetString (e : exc) (msg : string) : Py unit :=
  fun w => (inl tt, set_err (Some (e, msg)) w).
Definition PyErr_Occurred : Py bool :=
  fun w => (inl (match error_indicator w with Some _ => true | None => false end), w).
Definition PyErr_Clear : Py unit := fun w => (inl tt, set_err None w).
(** [PyErr_NoMemory] sets MemoryError and returns NULL. *)
Definition PyErr_NoMemory : Py PyRet :=
  PyErr_SetString PyExc_MemoryError "";; ret None.
Definition Py_RETURN_NONE {A} : Py A := return_ (Some Py_None).

Definition PyObject_IsTrue (o : PyObject) : bool :=
  match o with
  | Py_None => false
  | PyLong z => negb (z =? 0)
  | PyFloat bits => negb ((bits =? 0) || (bits =? 2 ^ 63))
  | PyBytes b => match b with [] => false | _ => true end
  | PyUnicode s => match s with EmptyString => false | _ => true end
  | PyTuple l => match l with [] => false | _ => true end
  end.

(** A conversion gives a C value and possibly raises. *)
Definition raise_from {A} (c : A * option pyerr) : Py A :=
  fun w => match snd c with
           | None => (inl (fst c), w)
           | Some e => (inl (fst c), set_err (Some e) w)
           end.

(** [PyLong_AsUnsignedLong]: (unsigned long)-1 with an error set when the
    object is no int or does not fit. *)
Definition as_unsigned_long (o : PyObject) : Z * option pyerr :=
  match o with
  | PyLong z =>
      if z <? 0 then
        (ULONG_MAX, Some (PyExc_OverflowError, "can't convert negative value to unsigned int"))
      else if ULONG_MAX <? z then
        (ULONG_MAX, Some (PyExc_OverflowError, "Python int too large to convert to C unsigned long"))
      else (z, None)
  | _ => (ULONG_MAX, Some (PyExc_TypeError, "an integer is required"))
  end.
Definition PyLong_AsUnsignedLong (o : PyObject) : Py Z := raise_from (as_unsigned_long o).

(** [PyLong_AsLong] on an int: -1 with OverflowError when it does not fit. *)
Definition long_of_int (z : Z) : Z * option pyerr :=
  if (z <? LONG_MIN) || (LONG_MAX <? z) then
    (-1, Some (PyExc_OverflowError, "Python int too large to convert to C long"))
  else (z, None).

(** [PyLong_AsLong]: an object that is no int goes through the number
    protocol of the host, which raises or gives an int; -1 with the error
    set on every failure. *)
Definition as_long (E : Env) (o : PyObject) : Z * option pyerr :=
  match o with
  | PyLong z => long_of_int z
  | _ =>
      match nb_int E o with
      | inl e => (-1, Some e)
      | inr z => long_of_int z
      end
  end.
Definition PyLong_AsLong (E : Env) (o : PyObject) : Py Z := raise_from (as_long E o).

(** [PyLong_AsVoidPtr]: negative ints go through [PyLong_AsLong], the
    others through [PyLong_AsUnsignedLong]; NULL when the conversion gave
    -1 and an error is pending.  The pointer is the address as an unsigned
    64-bit number. *)
Definition as_long_or_unsigned_long (o : PyObject) : Z * option pyerr :=
  match o with
  | PyLong z => if z <? 0 then long_of_int z else as_unsigned_long o
  | _ => as_unsigned_long o
  end.
Definition PyLong_AsVoidPtr (o : PyObject) : Py Z :=
  x <- raise_from (as_long_or_unsigned_long o);;
  failed <- PyErr_Occurred;;
  if (to_ulong x =? ULONG_MAX) && failed then ret 0 else ret (to_ulong x).

(** The process dies; nothing is returned, and the model ends the
    function there. *)
Definition die {A} : Py A := tell Crash;; return_ None.

(** [PyLong_AsVoidPtr] called between Py_BEGIN_ALLOW_THREADS and
    Py_END_ALLOW_THREADS, where there is no thread state.  A conversion
    that raises dies in [PyErr_SetString].  For the value -1
    [PyErr_Occurred] is asked: it dies where it reads the thread state
    without testing it, and answers that no error is pending otherwise. *)
Definition PyLong_AsVoidPtr_unlocked (E : Env) (o : PyObject) : Py Z :=
  match snd (as_long_or_unsigned_long o) with
  | Some _ => die
  | None =>
      if (to_ulong (fst (as_long_or_unsigned_long o)) =? ULONG_MAX)
         && PyErr_Occurred_needs_thread_state E
      then die
      else ret (to_ulong (fst (as_long_or_unsigned_long o)))
  end.

(** Object constructors allocate: the allocator may refuse, which sets
    MemoryError and gives NULL. *)
Definition new_object (E : Env) (o : PyObject) : Py PyRet :=
  fun w => if alloc_ok E (allocs w)
           then (inl (Some o), bump w)
           else (inl None, set_err (Some (PyExc_MemoryError, "")) (bump w)).

Definition PyLong_FromUnsignedLong (E : Env) (v : Z) : Py PyRet :=
  new_object E (PyLong v).
Definition PyLong_FromLong (E : Env) (v : Z) : Py PyRet :=
  new_object E (PyLong v).
(** A new tuple is represented by the items stored in it so far; the
    generators fill the slots from 0 upwards. *)
Definition PyTuple_New (E : Env) (n : Z) : Py PyRet :=
  new_object E (PyTuple []).

(** Reading [len] bytes of a buffer. *)
Definition read_bytes (buf : nat -> byte) (len : nat) : list byte :=
  map buf (seq 0 len).

(** [PyBytes_FromStringAndSize]: a negative size is a SystemError. *)
Definition PyBytes_FromStringAndSize (E : Env) (buf : nat -> byte) (len : Z) : Py PyRet :=
  if len <? 0 then
    PyErr_SetString PyExc_SystemError "Negative size passed to PyBytes_FromStringAndSize";;
    ret None
  else new_object E (PyBytes (read_bytes buf (Z.to_nat len))).
Definition PyBytes_FromString (E : Env) (s : list byte) : Py PyRet :=
  new_object E (PyBytes s).

(** [PyMem_Calloc(nelem, elsize)] / [PyMem_Malloc(n)]: NULL (0) when the
    size exceeds PY_SSIZE_T_MAX or the allocator refuses; otherwise the
    address of a block, zero-filled for calloc. *)
Definition PyMem_Malloc (E : Env) (nbytes : Z) : Py Z :=
  fun w =>
    if PY_SSIZE_T_MAX <? nbytes then (inl 0, w)
    else if alloc_ok E (allocs w) && negb (alloc_addr E (allocs w) =? 0)
         then (inl (alloc_addr E (allocs w)),
               emit (MemAlloc (alloc_addr E (allocs w)) nbytes) (bump w))
         else (inl 0, bump w).
Definition PyMem_Calloc (E : Env) (nelem elsize : Z) : Py Z :=
  if (elsize =? 0) || (nelem <=? PY_SSIZE_T_MAX / elsize)
  then PyMem_Malloc E (nelem * elsize)
  else ret 0.
Definition PyMem_Free (p : Z) : Py unit := tell (MemFree p).

Definition Py_BEGIN_ALLOW_THREADS : Py unit := tell SaveThread.
Definition Py_END_ALLOW_THREADS : Py unit := tell RestoreThread.

(** ** PyArg_ParseTuple

    The format units the file uses.  A failed parse sets the error
    indicator; the callers then [return NULL]. *)

Inductive fmt : Type :=
| fmt_I          (* "I": unsigned int, no overflow check *)
| fmt_i          (* "i": int, overflow checked *)
| fmt_f          (* "f": float *)
| fmt_k          (* "k": unsigned long, no overflow check *)
| fmt_O_PyLong   (* "O!" with &PyLong_Type *)
| fmt_s          (* "s": text without embedded NUL *)
| fmt_s_hash     (* "s#": text or bytes, with its length *)
| fmt_p.         (* "p": truth value *)

Definition ctype (f : fmt) : Type :=
  match f with
  | fmt_I | fmt_i | fmt_k | fmt_p => Z
  | fmt_f => cfloat
  | fmt_O_PyLong => PyObject
  | fmt_s => string
  | fmt_s_hash => (string * Z)%type
  end.

Fixpoint has_nul (s : string) : bool :=
  match s with
  | EmptyString => false
  | String c s' => (Ascii.eqb c Ascii.zero) || has_nul s'
  end.

(** The C string a native function reads at a [char*]: up to the first NUL. *)
Fixpoint c_string (s : string) : string :=
  match s with
  | EmptyString => EmptyString
  | String c s' => if Ascii.eqb c Ascii.zero then EmptyString else String c (c_string s')
  end.

Definition convert (f : fmt) (o : PyObject) : pyerr + ctype f :=
  match f return pyerr + ctype f with
  | fmt_I =>
      match o with
      | PyLong z => inr (to_uint z)
      | _ => inl (PyExc_TypeError, "an integer is required")
      end
  | fmt_i =>
      match o with
      | PyLong z =>
          if (z <? LONG_MIN) || (LONG_MAX <? z) then
            inl (PyExc_OverflowError, "Python int too large to convert to C long")
          else if INT_MAX <? z then
            inl (PyExc_OverflowError, "signed integer is greater than maximum")
          else if z <? INT_MIN then
            inl (PyExc_OverflowError, "signed integer is less than minimum")
          else inr z
      | _ => inl (PyExc_TypeError, "an integer is required")
      end
  | fmt_f =>
      match o with
      | PyFloat bits => inr (FromDouble bits)
      | PyLong z =>
          if 2 ^ 1024 - 2 ^ 970 <=? Z.abs z then
            inl (PyExc_OverflowError, "int too large to convert to float")
          else inr (FromInt z)
      | _ => inl (PyExc_TypeError, "must be real number")
      end
  | fmt_k =>
      match o with
      | PyLong z => inr (to_ulong z)
      | _ => inl (PyExc_TypeError, "an integer is required")
      end
  | fmt_O_PyLong =>
      match o with
      | PyLong _ => inr o
      | _ => inl (PyExc_TypeError, "must be int")
      end
  | fmt_s =>
      match o with
      | PyUnicode s =>
          if has_nul s then inl (PyExc_ValueError, "embedded null character")
          else inr s
      | _ => inl (PyExc_TypeError, "must be str")
      end
  | fmt_s_hash =>
      match o with
      | PyUnicode s => inr (s, Z.of_nat (String.length s))
      | PyBytes b => inr (string_of_list_byte b, Z.of_nat (List.length b))
      | _ => inl (PyExc_TypeError, "must be str or read-only bytes-like object")
      end
  | fmt_p => inr (if PyObject_IsTrue o then 1 else 0)
  end.

Fixpoint vals (fs : list fmt) : Type :=
  match fs with
  | [] => unit
  | f :: fs' => (ctype f * vals fs')%type
  end.

Fixpoint convert_all (fs : list fmt) (items : list PyObject) : pyerr + vals fs :=
  match fs return pyerr + vals fs with
  | [] => inr tt
  | f :: fs' =>
      match items with
      | [] => inl (PyExc_TypeError, "function takes more arguments")
      | o :: items' =>
          match convert f o with
          | inl e => inl e
          | inr v =>
              match convert_all fs' items' with
              | inl e => inl e
              | inr vs => inr (v, vs)
              end
          end
      end
  end.

(** The arity is checked before any item is converted. *)
Definition parse_tuple (args : PyObject) (fs : list fmt) : pyerr + vals fs :=
  match args with
  | PyTuple items =>
      if Nat.eqb (List.length items) (List.length fs) then convert_all fs items
      else inl (PyExc_TypeError, "function takes exactly the given number of arguments")
  | _ => inl (PyExc_SystemError, "new style getargs format but argument is not a tuple")
  end.

(** [if (!PyArg_ParseTuple(args, fmt, ...)) return NULL;] *)
Definition PyArg_ParseTuple (args : PyObject) (fs : list fmt) : Py (vals fs) :=
  match parse_tuple args fs with
  | inl (e, msg) => PyErr_SetString e msg;; return_ None
  | inr vs => ret vs
  end.

Notation "' pat <- m ;; k" := (bind m (fun x => match x with pat => k end))
  (at level 61, pat pattern, m at next level, right associativity).

(** ** Constants of the OpenGL headers *)

(** Modelled from the spec: the constants of <GL/glew.h> / <OpenGL/gl3.h>,
    which are not among the sources.  The spec names the error codes (no
    error, invalid enumeration value, invalid numeric argument,
    invalid-for-current-state operation, incomplete framebuffer,
    out-of-memory, stack underflow and overflow); their values are the
    ones of the OpenGL registry, which agree with the two fallbacks the
    file defines itself (GL_STACK_UNDERFLOW 0x0504, GL_STACK_OVERFLOW
    0x0503). *)
Module GLHeader.
Definition GL_NO_ERROR : Z := 0.
Definition GL_INVALID_ENUM : Z := 0x0500.
Definition GL_INVALID_VALUE : Z := 0x0501.
Definition GL_INVALID_OPERATION : Z := 0x0502.
Definition GL_STACK_OVERFLOW : Z := 0x0503.
Definition GL_STACK_UNDERFLOW : Z := 0x0504.
Definition GL_OUT_OF_MEMORY : Z := 0x0505.
Definition GL_INVALID_FRAMEBUFFER_OPERATION : Z := 0x0506.
Definition GL_INFO_LOG_LENGTH : Z := 0x8B84.
Definition GL_TEXTURE_2D_ARRAY : Z := 0x8C1A.
Definition GL_TEXTURE_BUFFER : Z := 0x8C2A.
Definition GL_UNPACK_ALIGNMENT : Z := 0x0CF5.
Definition GL_RGBA : Z := 0x1908.
Definition GL_RED : Z := 0x1903.
Definition GL_UNSIGNED_BYTE : Z := 0x1401.
Definition GLEW_OK : Z := 0.
End GLHeader.
Import GLHeader.

(** Native argument types. *)
Definition GLenum (z : Z) : carg := CInt (to_uint z).
Definition GLuint (z : Z) : carg := CInt (to_uint z).
Definition GLint (z : Z) : carg := CInt (to_int z).
Definition GLsizei (z : Z) : carg := CInt (to_int z).
Definition GLsizeiptr (z : Z) : carg := CInt ((z + 2 ^ 63) mod ULONG_MOD - 2 ^ 63).
Definition GLfloat (f : cfloat) : carg := CFloat f.
Definition GLboolean (z : Z) : carg := CInt (z mod 256).

(** The exception the translator raises for an error code; [None] for
    GL_NO_ERROR.  This is the [switch] of SET_GL_ERR. *)
Definition gl_error_exception (code : Z) : option pyerr :=
  if code =? GL_NO_ERROR then None
  else if code =? GL_INVALID_ENUM then
    Some (PyExc_ValueError, "An enum value is invalid (GL_INVALID_ENUM)")
  else if code =? GL_INVALID_VALUE then
    Some (PyExc_ValueError, "An numeric value is invalid (GL_INVALID_VALUE)")
  else if code =? GL_INVALID_OPERATION then
    Some (PyExc_ValueError, "This operation is not allowed in the current state (GL_INVALID_OPERATION)")
  else if code =? GL_INVALID_FRAMEBUFFER_OPERATION then
    Some (PyExc_ValueError, "The framebuffer object is not complete (GL_INVALID_FRAMEBUFFER_OPERATION)")
  else if code =? GL_OUT_OF_MEMORY then
    Some (PyExc_MemoryError, "There is not enough memory left to execute the command. (GL_OUT_OF_MEMORY)")
  else if code =? GL_STACK_UNDERFLOW then
    Some (PyExc_OverflowError, "An attempt has been made to perform an operation that would cause an internal stack to underflow. (GL_STACK_UNDERFLOW)")
  else if code =? GL_STACK_OVERFLOW then
    Some (PyExc_OverflowError, "An attempt has been made to perform an operation that would cause an internal stack to underflow. (GL_STACK_OVERFLOW)")
  else Some (PyExc_RuntimeError, "An unknown OpenGL error occurred.").

(** ** The functions of gl.h *)

Section Layer.

Variable E : Env.

Definition history : Py (list event) := fun w => (inl (trace w), w).

(** A native call without result. *)
Definition gl (f : string) (args : list carg) : Py unit := tell (Call f args).

Definition glGetError : Py Z :=
  h <- history;; gl "glGetError" [];; ret (to_uint (glGetError_result E h)).

(** [#define SET_GL_ERR switch(glGetError()) { ... }] *)
Definition SET_GL_ERR : Py unit :=
  code <- glGetError;;
  match gl_error_exception code with
  | None => ret tt
  | Some (e, msg) => PyErr_SetString e msg
  end.

(** [#define CHECK_ERROR if (_enable_error_checking) { SET_GL_ERR; if (PyErr_Occurred()) return NULL; }] *)
Definition CHECK_ERROR : Py unit :=
  w <- get_world;;
  if _enable_error_checking w then
    SET_GL_ERR;;
    bad <- PyErr_Occurred;;
    if bad then return_ None else ret tt
  else ret tt.

Definition enable_automatic_error_checking (val : PyObject) : cfun :=
  body ((fun w => (inl tt, set_flag (PyObject_IsTrue val) w));;
        Py_RETURN_NONE).

Definition Viewport (args : PyObject) : cfun :=
  body ('(x, (y, (w, (h, tt)))) <- PyArg_ParseTuple args [fmt_I; fmt_I; fmt_I; fmt_I];;
        gl "glViewport" [GLint x; GLint y; GLsizei w; GLsizei h];;
        CHECK_ERROR;;
        Py_RETURN_NONE).

Definition ClearColor (args : PyObject) : cfun :=
  body ('(x, (y, (w, (h, tt)))) <- PyArg_ParseTuple args [fmt_f; fmt_f; fmt_f; fmt_f];;
        gl "glClearColor" [GLfloat x; GLfloat y; GLfloat w; GLfloat h];;
        CHECK_ERROR;;
        Py_RETURN_NONE).

Definition Uniform2ui (args : PyObject) : cfun :=
  body ('(location, (x, (y, tt))) <- PyArg_ParseTuple args [fmt_i; fmt_I; fmt_I];;
        gl "glUniform2ui" [GLint location; GLuint x; GLuint y];;
        CHECK_ERROR;;
        Py_RETURN_NONE).

Definition Uniform1i (args : PyObject) : cfun :=
  body ('(location, (x, tt)) <- PyArg_ParseTuple args [fmt_i; fmt_i];;
        gl "glUniform1i" [GLint location; GLint x];;
        CHECK_ERROR;;
        Py_RETURN_NONE).

Definition Uniform2f (args : PyObject) : cfun :=
  body ('(location, (x, (y, tt))) <- PyArg_ParseTuple args [fmt_i; fmt_f; fmt_f];;
        gl "glUniform2f" [GLint location; GLfloat x; GLfloat y];;
        CHECK_ERROR;;
        Py_RETURN_NONE).

Definition Uniform4f (args : PyObject) : cfun :=
  body ('(location, (x, (y, (a, (b, tt))))) <-
          PyArg_ParseTuple args [fmt_i; fmt_f; fmt_f; fmt_f; fmt_f];;
        gl "glUniform4f" [GLint location; GLfloat x; GLfloat y; GLfloat a; GLfloat b];;
        CHECK_ERROR;;
        Py_RETURN_NONE).

Definition Uniform3fv (args : PyObject) : cfun :=
  body ('(location, (count, (l, tt))) <- PyArg_ParseTuple args [fmt_i; fmt_I; fmt_O_PyLong];;
        p <- PyLong_AsVoidPtr l;;
        gl "glUniform3fv" [GLint location; GLsizei count; CPtr p];;
        CHECK_ERROR;;
        Py_RETURN_NONE).

Definition CheckError : cfun :=
  body (CHECK_ERROR;; Py_RETURN_NONE).

(** [PyErr_Format(exc, fmt, ...); return NULL;] with the message already
    formatted. *)
Definition fail_with {A} (e : exc) (msg : string) : Py A :=
  PyErr_SetString e msg;; return_ None.

Definition ARB_TEST (present : bool) (name : string) : Py unit :=
  if negb present then
    fail_with PyExc_RuntimeError
      ("The OpenGL driver on this system is missing the required extension: ARB_" ++ name)
  else ret tt.

Definition _glewInit : cfun :=
  body (if APPLE E then Py_RETURN_NONE
        else
          h <- history;;
          gl "glewInit" [];;
          let err := glewInit_result E h in
          (if negb (err =? GLEW_OK) then
             fail_with PyExc_RuntimeError ("GLEW init failed: " ++ glewGetErrorString E err)
           else ret tt);;
          ARB_TEST (GLEW_ARB_texture_storage E) "texture_storage";;
          ARB_TEST (GLEW_ARB_texture_buffer_object_rgb32 E) "texture_buffer_object_rgb32";;
          Py_RETURN_NONE).

Definition GetString (val : PyObject) : cfun :=
  body (name <- PyLong_AsUnsignedLong val;;
        h <- history;;
        gl "glGetString" [GLenum name];;
        match glGetString_result E h (to_uint name) with
        | None => SET_GL_ERR;; return_ None
        | Some ans => r <- PyBytes_FromString E ans;; return_ r
        end).

Definition Clear (val : PyObject) : cfun :=
  body (m <- PyLong_AsUnsignedLong val;;
        Py_BEGIN_ALLOW_THREADS;;
        gl "glClear" [GLenum m];;
        Py_END_ALLOW_THREADS;;
        CHECK_ERROR;;
        Py_RETURN_NONE).

Definition DrawArrays (args : PyObject) : cfun :=
  body ('(mode, (first, (count, tt))) <- PyArg_ParseTuple args [fmt_i; fmt_i; fmt_I];;
        Py_BEGIN_ALLOW_THREADS;;
        gl "glDrawArrays" [GLenum mode; GLint first; GLsizei count];;
        Py_END_ALLOW_THREADS;;
        CHECK_ERROR;;
        Py_RETURN_NONE).

(** The two pointers are converted as arguments of the native call, after
    the lock is released; C leaves the order of the two conversions open,
    the first argument is taken first here.  A conversion that dies ends
    the run whichever comes first. *)
Definition MultiDrawArrays (args : PyObject) : cfun :=
  body ('(mode, (a, (b, (draw_count, tt)))) <-
          PyArg_ParseTuple args [fmt_i; fmt_O_PyLong; fmt_O_PyLong; fmt_I];;
        Py_BEGIN_ALLOW_THREADS;;
        pa <- PyLong_AsVoidPtr_unlocked E a;;
        pb <- PyLong_AsVoidPtr_unlocked E b;;
        gl "glMultiDrawArrays" [GLenum mode; CPtr pa; CPtr pb; GLsizei draw_count];;
        Py_END_ALLOW_THREADS;;
        CHECK_ERROR;;
        Py_RETURN_NONE).

Definition DrawArraysInstanced (args : PyObject) : cfun :=
  body ('(mode, (first, (count, (primcount, tt)))) <-
          PyArg_ParseTuple args [fmt_i; fmt_i; fmt_I; fmt_I];;
        Py_BEGIN_ALLOW_THREADS;;
        gl "glDrawArraysInstanced" [GLenum mode; GLint first; GLsizei count; GLsizei primcount];;
        Py_END_ALLOW_THREADS;;
        CHECK_ERROR;;
        Py_RETURN_NONE).

Definition CreateProgram : cfun :=
  body (h <- history;;
        gl "glCreateProgram" [];;
        let ans := to_uint (glCreateProgram_result E h) in
        if ans =? 0 then SET_GL_ERR;; return_ None
        else r <- PyLong_FromUnsignedLong E ans;; return_ r).

Definition AttachShader (args : PyObject) : cfun :=
  body ('(program_id, (shader_id, tt)) <- PyArg_ParseTuple args [fmt_I; fmt_I];;
        gl "glAttachShader" [GLuint program_id; GLuint shader_id];;
        CHECK_ERROR;;
        Py_RETURN_NONE).

Definition LinkProgram (val : PyObject) : cfun :=
  body (program_id <- PyLong_AsUnsignedLong val;;
        gl "glLinkProgram" [GLuint program_id];;
        CHECK_ERROR;;
        Py_RETURN_NONE).

(** [glGetProgramiv] / [glGetShaderiv] / [glGetIntegerv] on a local
    [GLint] holding [old]; the result is what the local holds afterwards. *)
Definition glGetiv (f : string) (args : list Z) (old : Z) : Py Z :=
  h <- history;;
  gl f (map CInt args);;
  ret (to_int (glGetiv_result E h f args old)).

Definition GetProgramiv (args : PyObject) : cfun :=
  body ('(program_id, (pname, tt)) <- PyArg_ParseTuple args [fmt_I; fmt_i];;
        ans <- glGetiv "glGetProgramiv" [to_uint program_id; to_uint pname] 0;;
        CHECK_ERROR;;
        r <- PyLong_FromLong E ans;; return_ r).

(** [glGetProgramInfoLog] / [glGetShaderInfoLog] on a local length and a
    heap buffer at [p] whose bytes are [buf] before the call. *)
Definition glGetInfoLog (f : string) (id bufsize old_len : Z) (p : Z) (buf : nat -> byte)
  : Py (Z * (nat -> byte)) :=
  h <- history;;
  gl f [GLuint id; GLsizei bufsize; CPtr p];;
  let '(len, buf') := glGetInfoLog_result E h f (to_uint id) (to_int bufsize) old_len buf in
  ret (to_int len, buf').

(** The bodies of GetProgramInfoLog and GetShaderInfoLog differ in the
    two native functions they call. *)
Definition InfoLog (getiv fetch : string) (val : PyObject) : cfun :=
  body (program_id <- PyLong_AsUnsignedLong val;;
        log_len <- glGetiv getiv [to_uint program_id; GL_INFO_LOG_LENGTH] 0;;
        buf <- PyMem_Calloc E (to_ulong (to_int (log_len + 10))) 1;;
        if buf =? 0 then r <- PyErr_NoMemory;; return_ r
        else
          '(log_len', contents) <-
             glGetInfoLog fetch program_id log_len log_len buf (fun _ => x00%byte);;
          ans <- PyBytes_FromStringAndSize E contents log_len';;
          PyMem_Free buf;;
          return_ ans).

Definition GetProgramInfoLog : PyObject -> cfun :=
  InfoLog "glGetProgramiv" "glGetProgramInfoLog".
Definition GetShaderInfoLog : PyObject -> cfun :=
  InfoLog "glGetShaderiv" "glGetShaderInfoLog".

Definition ActiveTexture (val : PyObject) : cfun :=
  body (tex_id <- PyLong_AsLong E val;;
        gl "glActiveTexture" [GLenum tex_id];;
        CHECK_ERROR;;
        Py_RETURN_NONE).

Definition DeleteProgram (val : PyObject) : cfun :=
  body (program_id <- PyLong_AsUnsignedLong val;;
        gl "glDeleteProgram" [GLuint program_id];;
        CHECK_ERROR;;
        Py_RETURN_NONE).

Definition DeleteShader (val : PyObject) : cfun :=
  body (program_id <- PyLong_AsUnsignedLong val;;
        gl "glDeleteShader" [GLuint program_id];;
        CHECK_ERROR;;
        Py_RETURN_NONE).

(** The [for] loop of the three generators: [todo] iterations remain,
    [i] is the index, [ans] the items already stored in the tuple (slots
    [0 .. i-1]). *)
Fixpoint fill_tuple (arrays : nat -> Z) (todo i : nat) (ans : list PyObject) : Py PyRet :=
  match todo with
  | O => ret (Some (PyTuple ans))
  | S todo' =>
      t <- PyLong_FromUnsignedLong E (arrays i);;
      match t with
      | None => PyErr_NoMemory                      (* Py_DECREF(ans) *)
      | Some o => fill_tuple arrays todo' (S i) (ans ++ [o])
      end
  end.

(** The array [GLuint arrays[256] = {0}] after the native call. *)
Definition generated (h : list event) (glGen : string) (n : Z) : nat -> Z :=
  fun i => to_uint (glGen_result E h glGen (to_int n) (fun _ => 0) i).

(** GenVertexArrays, GenTextures and GenBuffers are the same function up
    to the native entry point and the noun of the message. *)
Definition Gen (glGen what : string) (val : PyObject) : cfun :=
  body (n <- PyLong_AsUnsignedLong val;;
        if 256 <? n then
          fail_with PyExc_ValueError
            ("Generating more than 256 " ++ what ++ " in a single call is not supported")
        else
          h <- history;;
          gl glGen [GLsizei n];;
          let arrays := generated h glGen n in
          CHECK_ERROR;;
          if n =? 1 then r <- PyLong_FromUnsignedLong E (arrays 0%nat);; return_ r
          else
            ans <- PyTuple_New E n;;
            match ans with
            | None => r <- PyErr_NoMemory;; return_ r
            | Some _ => r <- fill_tuple arrays (Z.to_nat n) 0 [];; return_ r
            end).

Definition GenVertexArrays : PyObject -> cfun := Gen "glGenVertexArrays" "arrays".
Definition GenTextures : PyObject -> cfun := Gen "glGenTextures" "textures".
Definition GenBuffers : PyObject -> cfun := Gen "glGenBuffers" "buffers".

Definition CreateShader (val : PyObject) : cfun :=
  body (shader_type <- PyLong_AsLong E val;;
        h <- history;;
        gl "glCreateShader" [GLenum shader_type];;
        let ans := to_uint (glCreateShader_result E h (to_uint shader_type)) in
        CHECK_ERROR;;
        r <- PyLong_FromUnsignedLong E ans;; return_ r).

Definition ShaderSource (args : PyObject) : cfun :=
  body ('(shader_id, (src, tt)) <- PyArg_ParseTuple args [fmt_I; fmt_s_hash];;
        gl "glShaderSource" [GLuint shader_id; GLsizei 1; CStr (c_string (fst src)); CPtr 0];;
        CHECK_ERROR;;
        Py_RETURN_NONE).

Definition CompileShader (val : PyObject) : cfun :=
  body (shader_id <- PyLong_AsUnsignedLong val;;
        gl "glCompileShader" [GLuint shader_id];;
        CHECK_ERROR;;
        Py_RETURN_NONE).

Definition GetShaderiv (args : PyObject) : cfun :=
  body ('(program_id, (pname, tt)) <- PyArg_ParseTuple args [fmt_I; fmt_i];;
        ans <- glGetiv "glGetShaderiv" [to_uint program_id; to_uint pname] 0;;
        CHECK_ERROR;;
        r <- PyLong_FromLong E ans;; return_ r).

Definition glGetLocation (f : string) (program_id : Z) (name : string) : Py Z :=
  h <- history;;
  gl f [GLuint program_id; CStr name];;
  ret (to_int (glGetLocation_result E h f (to_uint program_id) name)).

Definition GetUniformLocation (args : PyObject) : cfun :=
  body ('(program_id, (name, tt)) <- PyArg_ParseTuple args [fmt_I; fmt_s];;
        ans <- glGetLocation "glGetUniformLocation" program_id name;;
        CHECK_ERROR;;
        r <- PyLong_FromLong E ans;; return_ r).

Definition GetAttribLocation (args : PyObject) : cfun :=
  body ('(program_id, (name, tt)) <- PyArg_ParseTuple args [fmt_I; fmt_s];;
        ans <- glGetLocation "glGetAttribLocation" program_id name;;
        CHECK_ERROR;;
        r <- PyLong_FromLong E ans;; return_ r).

Definition UseProgram (val : PyObject) : cfun :=
  body (program_id <- PyLong_AsUnsignedLong val;;
        gl "glUseProgram" [GLuint program_id];;
        CHECK_ERROR;;
        Py_RETURN_NONE).

Definition BindVertexArray (val : PyObject) : cfun :=
  body (program_id <- PyLong_AsUnsignedLong val;;
        gl "glBindVertexArray" [GLuint program_id];;
        CHECK_ERROR;;
        Py_RETURN_NONE).

Definition GetIntegerv (val : PyObject) : cfun :=
  body (program_id <- PyLong_AsUnsignedLong val;;
        ans <- glGetiv "glGetIntegerv" [to_uint program_id] 0;;
        CHECK_ERROR;;
        r <- PyLong_FromLong E ans;; return_ r).

Definition BindTexture (args : PyObject) : cfun :=
  body ('(target, (tex_id, tt)) <- PyArg_ParseTuple args [fmt_i; fmt_I];;
        gl "glBindTexture" [GLenum target; GLuint tex_id];;
        CHECK_ERROR;;
        Py_RETURN_NONE).

Definition TexStorage3D (args : PyObject) : cfun :=
  body ('(target, (levels, (fmt, (width, (height, (depth, tt)))))) <-
          PyArg_ParseTuple args [fmt_i; fmt_I; fmt_i; fmt_I; fmt_I; fmt_I];;
        Py_BEGIN_ALLOW_THREADS;;
        gl "glTexStorage3D" [GLenum target; GLsizei levels; GLenum fmt;
                             GLsizei width; GLsizei height; GLsizei depth];;
        Py_END_ALLOW_THREADS;;
        CHECK_ERROR;;
        Py_RETURN_NONE).

Definition CopyImageSubData (args : PyObject) : cfun :=
  body (if APPLE E && negb (HAVE_glCopyImageSubData E) then
          fail_with PyExc_RuntimeError "OpenGL is missing the required ARB_copy_image extension"
        else
          (if negb (GLEW_ARB_copy_image E) then
             fail_with PyExc_RuntimeError "OpenGL is missing the required ARB_copy_image extension"
           else ret tt);;
          '(src, (src_target, (src_level, (srcX, (srcY, (srcZ,
            (dest, (dest_target, (dest_level, (destX, (destY, (destZ,
            (width, (height, (depth, tt))))))))))))))) <-
            PyArg_ParseTuple args
              [fmt_I; fmt_i; fmt_i; fmt_i; fmt_i; fmt_i;
               fmt_I; fmt_i; fmt_i; fmt_i; fmt_i; fmt_i;
               fmt_I; fmt_I; fmt_I];;
          Py_BEGIN_ALLOW_THREADS;;
          gl "glCopyImageSubData"
             [GLuint src; GLenum src_target; GLint src_level; GLint srcX; GLint srcY; GLint srcZ;
              GLuint dest; GLenum dest_target; GLint dest_level; GLint destX; GLint destY; GLint destZ;
              GLsizei width; GLsizei height; GLsizei depth];;
          Py_END_ALLOW_THREADS;;
          CHECK_ERROR;;
          Py_RETURN_NONE).

(** One byte of a block, by offset. *)
Definition store (block : Z -> byte) (at_ : Z) (b : byte) : Z -> byte :=
  fun j => if j =? at_ then b else block j.

(** [for (unsigned int i = 0; i < n; i++) dest[i] = src[4*i];] on the block
    at [src], with [dest] at offset [dest_off]: [todo] iterations remain,
    [i] is the index; [4*i] is computed in [unsigned int]. *)
Fixpoint pixel_loop (dest_off : Z) (todo : nat) (i : Z) (block : Z -> byte) : Z -> byte :=
  match todo with
  | O => block
  | S todo' =>
      pixel_loop dest_off todo' (i + 1)
        (store block (dest_off + i) (block (to_uint (4 * i))))
  end.

(** The block holds the download in its first four fifths and the bytes
    to upload in the last fifth; the loop runs before the lock is taken
    again. *)
Definition copy_image_sub_data (args : PyObject) : cfun :=
  body ('(src_target, (dest_target, (width, (height, (num_levels, tt))))) <-
          PyArg_ParseTuple args [fmt_i; fmt_i; fmt_I; fmt_I; fmt_I];;
        src <- PyMem_Malloc E (to_uint (5 * width * height * num_levels));;
        if src =? 0 then r <- PyErr_NoMemory;; return_ r
        else
          let dest_off := to_uint (4 * width * height * num_levels) in
          let dest := to_ulong (src + dest_off) in
          Py_BEGIN_ALLOW_THREADS;;
          gl "glBindTexture" [GLenum GL_TEXTURE_2D_ARRAY; GLuint src_target];;
          h <- history;;
          gl "glGetTexImage" [GLenum GL_TEXTURE_2D_ARRAY; GLint 0; GLenum GL_RGBA;
                              GLenum GL_UNSIGNED_BYTE; CPtr src];;
          gl "glBindTexture" [GLenum GL_TEXTURE_2D_ARRAY; GLuint dest_target];;
          gl "glPixelStorei" [GLenum GL_UNPACK_ALIGNMENT; GLint 1];;
          tell (HostMemory src
                  (pixel_loop dest_off (Z.to_nat (to_uint (width * height * num_levels))) 0
                     (glGetTexImage_result E h)));;
          gl "glTexSubImage3D" [GLenum GL_TEXTURE_2D_ARRAY; GLint 0; GLint 0; GLint 0; GLint 0;
                                GLsizei width; GLsizei height; GLsizei num_levels;
                                GLenum GL_RED; GLenum GL_UNSIGNED_BYTE; CPtr dest];;
          Py_END_ALLOW_THREADS;;
          PyMem_Free src;;
          Py_RETURN_NONE).

(** [if (data == NULL) { PyErr_SetString(PyExc_TypeError, ...); return NULL; }] *)
Definition require_data (data : Z) : Py unit :=
  if data =? 0 then fail_with PyExc_TypeError "Not a valid data pointer" else ret tt.

Definition TexSubImage3D (args : PyObject) : cfun :=
  body ('(target, (level, (x, (y, (z, (width, (height, (depth, (fmt, (type, (pixels, tt))))))))))) <-
          PyArg_ParseTuple args
            [fmt_i; fmt_i; fmt_i; fmt_i; fmt_i; fmt_I; fmt_I; fmt_I; fmt_i; fmt_i; fmt_O_PyLong];;
        data <- PyLong_AsVoidPtr pixels;;
        require_data data;;
        Py_BEGIN_ALLOW_THREADS;;
        gl "glTexSubImage3D" [GLenum target; GLint level; GLint x; GLint y; GLint z;
                              GLsizei width; GLsizei height; GLsizei depth;
                              GLenum fmt; GLenum type; CPtr data];;
        Py_END_ALLOW_THREADS;;
        CHECK_ERROR;;
        Py_RETURN_NONE).

Definition GetTexImage (args : PyObject) : cfun :=
  body ('(target, (level, (fmt, (type, (pixels, tt))))) <-
          PyArg_ParseTuple args [fmt_i; fmt_i; fmt_i; fmt_i; fmt_O_PyLong];;
        data <- PyLong_AsVoidPtr pixels;;
        require_data data;;
        Py_BEGIN_ALLOW_THREADS;;
        gl "glGetTexImage" [GLenum target; GLint level; GLenum fmt; GLenum type; CPtr data];;
        Py_END_ALLOW_THREADS;;
        CHECK_ERROR;;
        Py_RETURN_NONE).

Definition NamedBufferData (args : PyObject) : cfun :=
  body ('(target, (size, (address, (usage, tt)))) <-
          PyArg_ParseTuple args [fmt_k; fmt_k; fmt_O_PyLong; fmt_i];;
        data <- PyLong_AsVoidPtr address;;
        require_data data;;
        Py_BEGIN_ALLOW_THREADS;;
        (if HAVE_glNamedBufferData E && (if APPLE E then false else GLEW_VERSION_4_5 E) then
           gl "glNamedBufferData" [GLuint target; GLsizeiptr size; CPtr data; GLenum usage]
         else
           gl "glBindBuffer" [GLenum GL_TEXTURE_BUFFER; GLuint target];;
           gl "glBufferData" [GLenum GL_TEXTURE_BUFFER; GLsizeiptr size; CPtr data; GLenum usage];;
           gl "glBindBuffer" [GLenum GL_TEXTURE_BUFFER; GLuint 0]);;
        Py_END_ALLOW_THREADS;;
        CHECK_ERROR;;
        Py_RETURN_NONE).

Definition TexParameteri (args : PyObject) : cfun :=
  body ('(target, (name, (param, tt))) <- PyArg_ParseTuple args [fmt_i; fmt_i; fmt_i];;
        gl "glTexParameteri" [GLenum target; GLenum name; GLint param];;
        CHECK_ERROR;;
        Py_RETURN_NONE).

Definition PixelStorei (args : PyObject) : cfun :=
  body ('(name, (param, tt)) <- PyArg_ParseTuple args [fmt_i; fmt_i];;
        gl "glPixelStorei" [GLenum name; GLint param];;
        CHECK_ERROR;;
        Py_RETURN_NONE).

Definition BindBuffer (args : PyObject) : cfun :=
  body ('(tgt, (buf_id, tt)) <- PyArg_ParseTuple args [fmt_i; fmt_I];;
        gl "glBindBuffer" [GLenum tgt; GLuint buf_id];;
        CHECK_ERROR;;
        Py_RETURN_NONE).

Definition TexBuffer (args : PyObject) : cfun :=
  body ('(tgt, (fmt, (buf_id, tt))) <- PyArg_ParseTuple args [fmt_i; fmt_i; fmt_I];;
        gl "glTexBuffer" [GLenum tgt; GLenum fmt; GLuint buf_id];;
        CHECK_ERROR;;
        Py_RETURN_NONE).

Definition DeleteTexture (val : PyObject) : cfun :=
  body (tex_id <- PyLong_AsUnsignedLong val;;
        gl "glDeleteTextures" [GLsizei 1; GLuint tex_id];;
        CHECK_ERROR;;
        Py_RETURN_NONE).

Definition DeleteBuffer (val : PyObject) : cfun :=
  body (tex_id <- PyLong_AsUnsignedLong val;;
        gl "glDeleteBuffers" [GLsizei 1; GLuint tex_id];;
        CHECK_ERROR;;
        Py_RETURN_NONE).

Definition BlendFunc (args : PyObject) : cfun :=
  body ('(s, (d, tt)) <- PyArg_ParseTuple args [fmt_i; fmt_i];;
        gl "glBlendFunc" [GLenum s; GLenum d];;
        CHECK_ERROR;;
        Py_RETURN_NONE).

Definition Enable (val : PyObject) : cfun :=
  body (x <- PyLong_AsLong E val;;
        gl "glEnable" [GLenum x];;
        CHECK_ERROR;;
        Py_RETURN_NONE).

Definition Disable (val : PyObject) : cfun :=
  body (x <- PyLong_AsLong E val;;
        gl "glDisable" [GLenum x];;
        CHECK_ERROR;;
        Py_RETURN_NONE).

Definition EnableVertexAttribArray (val : PyObject) : cfun :=
  body (x <- PyLong_AsLong E val;;
        gl "glEnableVertexAttribArray" [GLuint x];;
        CHECK_ERROR;;
        Py_RETURN_NONE).

Definition VertexAttribPointer (args : PyObject) : cfun :=
  body ('(index, (size, (type, (normalized, (stride, (l, tt)))))) <-
          PyArg_ParseTuple args [fmt_I; fmt_i; fmt_i; fmt_p; fmt_I; fmt_O_PyLong];;
        offset <- PyLong_AsVoidPtr l;;
        gl "glVertexAttribPointer" [GLuint index; GLint size; GLenum type;
                                    GLboolean normalized; GLsizei stride; CPtr offset];;
        CHECK_ERROR;;
        Py_RETURN_NONE).

(** *** The constant registry *)

(** The namespace of the module: names in insertion order. *)
Definition namespace : Type := list (string * Z).

Fixpoint dict_set (k : string) (v : Z) (d : namespace) : namespace :=
  match d with
  | [] => [(k, v)]
  | (k', v') :: d' =>
      if String.eqb k k' then (k, v) :: d' else (k', v') :: dict_set k v d'
  end.

(** [PyModule_AddIntConstant]: 0 and the name bound, or -1 with an
    error set when the allocator refuses. *)
Definition PyModule_AddIntConstant (module : namespace) (name : string) (value : Z)
  : world -> (Z * namespace) * world :=
  fun w => if alloc_ok E (allocs w)
           then ((0, dict_set name value module), bump w)
           else ((-1, module), set_err (Some (PyExc_MemoryError, "")) (bump w)).

(** Modelled from the spec: the values of the published names come from
    the OpenGL headers, which are not among the sources; the names and
    their order are the [GLC(...)] lines of [add_module_gl_constants]. *)
Definition GLC_table : list (string * Z) :=
  [ ("GL_VERSION", 0x1F02); ("GL_VENDOR", 0x1F00);
    ("GL_SHADING_LANGUAGE_VERSION", 0x8B8C); ("GL_RENDERER", 0x1F01);
    ("GL_TRIANGLE_FAN", 0x0006); ("GL_TRIANGLE_STRIP", 0x0005);
    ("GL_TRIANGLES", 0x0004); ("GL_LINE_LOOP", 0x0002);
    ("GL_COLOR_BUFFER_BIT", 0x4000);
    ("GL_VERTEX_SHADER", 0x8B31); ("GL_FRAGMENT_SHADER", 0x8B30);
    ("GL_TRUE", 1); ("GL_FALSE", 0);
    ("GL_COMPILE_STATUS", 0x8B81); ("GL_LINK_STATUS", 0x8B82);
    ("GL_TEXTURE0", 0x84C0); ("GL_TEXTURE1", 0x84C1); ("GL_TEXTURE2", 0x84C2);
    ("GL_TEXTURE3", 0x84C3); ("GL_TEXTURE4", 0x84C4); ("GL_TEXTURE5", 0x84C5);
    ("GL_TEXTURE6", 0x84C6); ("GL_TEXTURE7", 0x84C7); ("GL_TEXTURE8", 0x84C8);
    ("GL_MAX_ARRAY_TEXTURE_LAYERS", 0x88FF); ("GL_MAX_TEXTURE_SIZE", 0x0D33);
    ("GL_TEXTURE_2D_ARRAY", 0x8C1A);
    ("GL_LINEAR", 0x2601); ("GL_CLAMP_TO_EDGE", 0x812F); ("GL_NEAREST", 0x2600);
    ("GL_TEXTURE_MIN_FILTER", 0x2801); ("GL_TEXTURE_MAG_FILTER", 0x2800);
    ("GL_TEXTURE_WRAP_S", 0x2802); ("GL_TEXTURE_WRAP_T", 0x2803);
    ("GL_UNPACK_ALIGNMENT", 0x0CF5);
    ("GL_R8", 0x8229); ("GL_RED", 0x1903); ("GL_UNSIGNED_BYTE", 0x1401);
    ("GL_RGB32UI", 0x8D71); ("GL_RGBA", 0x1908);
    ("GL_TEXTURE_BUFFER", 0x8C2A); ("GL_STATIC_DRAW", 0x88E4); ("GL_STREAM_DRAW", 0x88E0);
    ("GL_SRC_ALPHA", 0x0302); ("GL_ONE_MINUS_SRC_ALPHA", 0x0303);
    ("GL_BLEND", 0x0BE2); ("GL_FLOAT", 0x1406); ("GL_ARRAY_BUFFER", 0x8892) ].

(** The [GLC(x)] lines from a given one on:
    [if (PyModule_AddIntConstant(module, #x, x) != 0) { PyErr_NoMemory(); return 0; }]
    and [return 1] after the last one. *)
Fixpoint GLC (cs : list (string * Z)) (module : namespace)
  : world -> (Z * namespace) * world :=
  match cs with
  | [] => fun w => ((1, module), w)
  | (name, value) :: cs' =>
      fun w =>
        let '((rc, module'), w') := PyModule_AddIntConstant module name value w in
        if negb (rc =? 0) then ((0, module'), set_err (Some (PyExc_MemoryError, "")) w')
        else GLC cs' module' w'
  end.

Definition add_module_gl_constants (module : namespace) : world -> (Z * namespace) * world :=
  GLC GLC_table module.

(** *** The method table GL_METHODS *)

Inductive method : Type :=
| enable_automatic_opengl_error_checking | m_copy_image_sub_data | glewInit
| glViewport | glCheckError | glClearColor | glGetProgramiv | glGetShaderiv
| glUniform2ui | glUniform1i | glUniform2f | glUniform4f | glUniform3fv
| glGetUniformLocation | glGetAttribLocation | glShaderSource | glCompileShader
| glDeleteTexture | glDeleteBuffer | glGetString | glGetIntegerv | glClear
| glCreateShader | glGenVertexArrays | glGenTextures | glGenBuffers
| glLinkProgram | glUseProgram | glBindVertexArray | glDeleteProgram
| glDeleteShader | glEnable | glDisable | glEnableVertexAttribArray
| glVertexAttribPointer | glGetProgramInfoLog | glGetShaderInfoLog
| glActiveTexture | glDrawArraysInstanced | glDrawArrays | glMultiDrawArrays
| glCreateProgram | glAttachShader | glBindTexture | glTexParameteri
| glPixelStorei | glBindBuffer | glTexBuffer | glTexStorage3D
| glCopyImageSubData | glTexSubImage3D | glGetTexImage | glNamedBufferData
| glBlendFunc.

(** The C function of each entry; METH_NOARGS functions ignore the
    argument. *)
Definition GL_METHODS (m : method) : PyObject -> cfun :=
  match m with
  | enable_automatic_opengl_error_checking => enable_automatic_error_checking
  | m_copy_image_sub_data => copy_image_sub_data
  | glewInit => fun _ => _glewInit
  | glViewport => Viewport
  | glCheckError => fun _ => CheckError
  | glClearColor => ClearColor
  | glGetProgramiv => GetProgramiv
  | glGetShaderiv => GetShaderiv
  | glUniform2ui => Uniform2ui
  | glUniform1i => Uniform1i
  | glUniform2f => Uniform2f
  | glUniform4f => Uniform4f
  | glUniform3fv => Uniform3fv
  | glGetUniformLocation => GetUniformLocation
  | glGetAttribLocation => GetAttribLocation
  | glShaderSource => ShaderSource
  | glCompileShader => CompileShader
  | glDeleteTexture => DeleteTexture
  | glDeleteBuffer => DeleteBuffer
  | glGetString => GetString
  | glGetIntegerv => GetIntegerv
  | glClear => Clear
  | glCreateShader => CreateShader
  | glGenVertexArrays => GenVertexArrays
  | glGenTextures => GenTextures
  | glGenBuffers => GenBuffers
  | glLinkProgram => LinkProgram
  | glUseProgram => UseProgram
  | glBindVertexArray => BindVertexArray
  | glDeleteProgram => DeleteProgram
  | glDeleteShader => DeleteShader
  | glEnable => Enable
  | glDisable => Disable
  | glEnableVertexAttribArray => EnableVertexAttribArray
  | glVertexAttribPointer => VertexAttribPointer
  | glGetProgramInfoLog => GetProgramInfoLog
  | glGetShaderInfoLog => GetShaderInfoLog
  | glActiveTexture => ActiveTexture
  | glDrawArraysInstanced => DrawArraysInstanced
  | glDrawArrays => DrawArrays
  | glMultiDrawArrays => MultiDrawArrays
  | glCreateProgram => fun _ => CreateProgram
  | glAttachShader => AttachShader
  | glBindTexture => BindTexture
  | glTexParameteri => TexParameteri
  | glPixelStorei => PixelStorei
  | glBindBuffer => BindBuffer
  | glTexBuffer => TexBuffer
  | glTexStorage3D => TexStorage3D
  | glCopyImageSubData => CopyImageSubData
  | glTexSubImage3D => TexSubImage3D
  | glGetTexImage => GetTexImage
  | glNamedBufferData => NamedBufferData
  | glBlendFunc => BlendFunc
  end.

End Layer.

(** ** Reading traces *)

(** The events a function added to the trace, newest first. *)
Definition emitted (f : cfun) (w : world) (new : list event) : Prop :=
  trace (snd (f w)) = (new ++ trace w)%list.

Definition is_error_query (e : event) : bool :=
  match e with
  | Call f _ => String.eqb f "glGetError"
  | _ => false
  end.




Definition is_crash (e : event) : bool :=
  match e with
  | Crash => true
  | _ => false
  end.

(** The process died during the call. *)
Definition died (new : list event) : bool := existsb is_crash new.





(** ** Proof automation for function bodies *)

Ltac unfold_api :=
  unfold Viewport, ClearColor, Uniform2ui, Uniform1i, Uniform2f, Uniform4f, Uniform3fv,
    CheckError, _glewInit, GetString, Clear, DrawArrays, MultiDrawArrays,
    DrawArraysInstanced, CreateProgram, AttachShader, LinkProgram, GetProgramiv,
    GetProgramInfoLog, GetShaderInfoLog, InfoLog, ActiveTexture, DeleteProgram,
    DeleteShader, GenVertexArrays, GenTextures, GenBuffers, Gen, CreateShader,
    ShaderSource, CompileShader, GetShaderiv, GetUniformLocation, GetAttribLocation,
    UseProgram, BindVertexArray, GetIntegerv, BindTexture, TexStorage3D,
    CopyImageSubData, copy_image_sub_data, TexSubImage3D, GetTexImage, NamedBufferData,
    TexParameteri, PixelStorei, BindBuffer, TexBuffer, DeleteTexture, DeleteBuffer,
    BlendFunc, Enable, Disable, EnableVertexAttribArray, VertexAttribPointer,
    enable_automatic_error_checking.

Ltac unfold_monad :=
  unfold body, CHECK_ERROR, SET_GL_ERR, glGetError, glGetiv, glGetInfoLog, glGetLocation,
    ARB_TEST, require_data, fail_with, PyArg_ParseTuple, PyLong_AsVoidPtr,
    PyLong_AsVoidPtr_unlocked, die,
    PyLong_AsUnsignedLong, PyLong_AsLong, raise_from, PyLong_FromUnsignedLong, PyLong_FromLong,
    PyTuple_New, PyBytes_FromString, PyBytes_FromStringAndSize, new_object,
    PyMem_Calloc, PyMem_Malloc, PyMem_Free, PyErr_NoMemory, PyErr_SetString,
    PyErr_Occurred, PyErr_Clear, Py_RETURN_NONE, Py_BEGIN_ALLOW_THREADS,
    Py_END_ALLOW_THREADS, gl, tell, history, get_world, bind, ret, return_.

Ltac world_simpl :=
  cbn [fst snd trace error_indicator _enable_error_checking allocs
       set_err set_flag emit bump app] in *.

(** Case analysis on the next test the body makes. *)
Ltac break_step :=
  match goal with
  | |- context [match ?x with _ => _ end] =>
      lazymatch x with
      | context [match _ with _ => _ end] => fail
      | _ => destruct x eqn:?
      end
  | |- context [if ?x then _ else _] =>
      lazymatch x with
      | context [if _ then _ else _] => fail
      | _ => destruct x eqn:?
      end
  end.

Ltac run_body := unfold_api; unfold_monad; world_simpl; repeat (break_step; world_simpl).

(** Exhibit the events added in front of the old trace. *)
Ltac split_trace :=
  lazymatch goal with
  | |- ?t = (?n ++ ?t)%list => unify n (@nil event); reflexivity
  | |- ?e :: ?l = (?n ++ ?t)%list =>
      let n' := fresh "n" in
      evar (n' : list event); unify n (e :: n'); subst n';
      cbn [app]; apply f_equal; split_trace
  end.

(** ** Concrete environments *)

(** A driver without errors that numbers the generated handles 1, 2, ...
    and a host whose allocations succeed. *)
Definition quiet_env : Env :=
  {| APPLE := false; HAVE_glNamedBufferData := true; HAVE_glCopyImageSubData := true;
     glewInit_result := fun _ => 0;
     glewGetErrorString := fun _ => "No error";
     GLEW_ARB_texture_storage := true;
     GLEW_ARB_texture_buffer_object_rgb32 := true;
     GLEW_ARB_copy_image := true;
     GLEW_VERSION_4_5 := true;
     glGetError_result := fun _ => 0;
     glGetString_result := fun _ _ => Some [x6f; x6b]%byte;
     glCreateProgram_result := fun _ => 1;
     glCreateShader_result := fun _ _ => 1;
     glGetiv_result := fun _ _ _ old => old;
     glGetLocation_result := fun _ _ _ _ => -1;
     glGetInfoLog_result := fun _ _ _ _ _ buf => (0, buf);
     glGen_result := fun _ _ _ _ i => Z.of_nat i + 1;
     alloc_ok := fun _ => true;
     alloc_addr := fun _ => 4096;
     glGetTexImage_result := fun _ offset => if offset mod 4 =? 0 then x2a%byte else x00%byte;
     nb_int := fun _ => inl (PyExc_TypeError, "object cannot be interpreted as an integer");
     PyErr_Occurred_needs_thread_state := true |}.

(** The same with another answer to [glGetError]. *)
Definition with_glGetError (g : list event -> Z) (E : Env) : Env :=
  {| APPLE := APPLE E; HAVE_glNamedBufferData := HAVE_glNamedBufferData E;
     HAVE_glCopyImageSubData := HAVE_glCopyImageSubData E;
     glewInit_result := glewInit_result E;
     glewGetErrorString := glewGetErrorString E;
     GLEW_ARB_texture_storage := GLEW_ARB_texture_storage E;
     GLEW_ARB_texture_buffer_object_rgb32 := GLEW_ARB_texture_buffer_object_rgb32 E;
     GLEW_ARB_copy_image := GLEW_ARB_copy_image E;
     GLEW_VERSION_4_5 := GLEW_VERSION_4_5 E;
     glGetError_result := g;
     glGetString_result := glGetString_result E;
     glCreateProgram_result := glCreateProgram_result E;
     glCreateShader_result := glCreateShader_result E;
     glGetiv_result := glGetiv_result E;
     glGetLocation_result := glGetLocation_result E;
     glGetInfoLog_result := glGetInfoLog_result E;
     glGen_result := glGen_result E;
     alloc_ok := alloc_ok E;
     alloc_addr := alloc_addr E;
     glGetTexImage_result := glGetTexImage_result E;
     nb_int := nb_int E;
     PyErr_Occurred_needs_thread_state := PyErr_Occurred_needs_thread_state E |}.

(** The quiet driver, except that glCreateProgram returns 0. *)
Definition no_program_env : Env :=
  {| APPLE := APPLE quiet_env; HAVE_glNamedBufferData := HAVE_glNamedBufferData quiet_env;
     HAVE_glCopyImageSubData := HAVE_glCopyImageSubData quiet_env;
     glewInit_result := glewInit_result quiet_env;
     glewGetErrorString := glewGetErrorString quiet_env;
     GLEW_ARB_texture_storage := GLEW_ARB_texture_storage quiet_env;
     GLEW_ARB_texture_buffer_object_rgb32 := GLEW_ARB_texture_buffer_object_rgb32 quiet_env;
     GLEW_ARB_copy_image := GLEW_ARB_copy_image quiet_env;
     GLEW_VERSION_4_5 := GLEW_VERSION_4_5 quiet_env;
     glGetError_result := glGetError_result quiet_env;
     glGetString_result := glGetString_result quiet_env;
     glCreateProgram_result := fun _ => 0;
     glCreateShader_result := glCreateShader_result quiet_env;
     glGetiv_result := glGetiv_result quiet_env;
     glGetLocation_result := glGetLocation_result quiet_env;
     glGetInfoLog_result := glGetInfoLog_result quiet_env;
     glGen_result := glGen_result quiet_env;
     alloc_ok := alloc_ok quiet_env;
     alloc_addr := alloc_addr quiet_env;
     glGetTexImage_result := glGetTexImage_result quiet_env;
     nb_int := nb_int quiet_env;
     PyErr_Occurred_needs_thread_state := PyErr_Occurred_needs_thread_state quiet_env |}.

(** ** The batch allocators *)

Definition batch_allocators : list (method * string) :=
  [ (glGenVertexArrays, "glGenVertexArrays");
    (glGenTextures, "glGenTextures");
    (glGenBuffers, "glGenBuffers") ].

(** CHECK_ERROR lets the function go on: the flag is off, or no host error
    is pending and the driver reports GL_NO_ERROR at history [h]. *)
Definition check_passes (E : Env) (w : world) (h : list event) : Prop :=
  _enable_error_checking w = false \/
  (error_indicator w = None /\ to_uint (glGetError_result E h) = GL_NO_ERROR).

(** The allocation requests number [from], ..., [from + count - 1] succeed. *)
Definition allocations_succeed (E : Env) (from count : nat) : Prop :=
  forall k, (from <= k < from + count)%nat -> alloc_ok E k = true.

Fixpoint bump_by (n : nat) (w : world) : world :=
  match n with
  | O => w
  | S n' => bump_by n' (bump w)
  end.

(** ** Error codes in messages *)

Fixpoint occurs_in (sub s : string) : bool :=
  match s with
  | EmptyString => String.prefix sub s
  | String _ s' => String.prefix sub s || occurs_in sub s'
  end.

(** The code written in decimal or in hexadecimal occurs in the message. *)
Definition includes_code (msg : string) (code : Z) : bool :=
  occurs_in (DecimalString.NilZero.string_of_int (Z.to_int code)) msg ||
  occurs_in (HexadecimalString.NilZero.string_of_uint (N.to_hex_uint (Z.to_N code))) msg.

Definition argument_or_state_errors : list Z :=
  [GL_INVALID_ENUM; GL_INVALID_VALUE; GL_INVALID_OPERATION; GL_INVALID_FRAMEBUFFER_OPERATION].
Definition stack_errors : list Z := [GL_STACK_UNDERFLOW; GL_STACK_OVERFLOW].
Definition named_errors : list Z :=
  GL_NO_ERROR :: GL_OUT_OF_MEMORY :: (argument_or_state_errors ++ stack_errors)%list.

(** ** Which operations check errors *)

(** GetString and CreateProgram run SET_GL_ERR themselves when the native
    result is NULL or 0. *)
Definition translates_unconditionally (m : method) : bool :=
  match m with
  | glGetString | glCreateProgram => true
  | _ => false
  end.

(** The operations whose body contains CHECK_ERROR. *)
Definition uses_CHECK_ERROR (m : method) : bool :=
  match m with
  | enable_automatic_opengl_error_checking | m_copy_image_sub_data | glewInit
  | glGetString | glCreateProgram | glGetProgramInfoLog | glGetShaderInfoLog => false
  | _ => true
  end.

(** The same environment with another answer to [glGetString]. *)
Definition with_glGetString (g : list event -> Z -> option (list byte)) (E : Env) : Env :=
  {| APPLE := APPLE E; HAVE_glNamedBufferData := HAVE_glNamedBufferData E;
     HAVE_glCopyImageSubData := HAVE_glCopyImageSubData E;
     glewInit_result := glewInit_result E;
     glewGetErrorString := glewGetErrorString E;
     GLEW_ARB_texture_storage := GLEW_ARB_texture_storage E;
     GLEW_ARB_texture_buffer_object_rgb32 := GLEW_ARB_texture_buffer_object_rgb32 E;
     GLEW_ARB_copy_image := GLEW_ARB_copy_image E;
     GLEW_VERSION_4_5 := GLEW_VERSION_4_5 E;
     glGetError_result := glGetError_result E;
     glGetString_result := g;
     glCreateProgram_result := glCreateProgram_result E;
     glCreateShader_result := glCreateShader_result E;
     glGetiv_result := glGetiv_result E;
     glGetLocation_result := glGetLocation_result E;
     glGetInfoLog_result := glGetInfoLog_result E;
     glGen_result := glGen_result E;
     alloc_ok := alloc_ok E;
     alloc_addr := alloc_addr E;
     glGetTexImage_result := glGetTexImage_result E;
     nb_int := nb_int E;
     PyErr_Occurred_needs_thread_state := PyErr_Occurred_needs_thread_state E |}.

(** ** Operations with a pointer argument *)

(** The operations that test the decoded pointer, with their format and
    the position of the pointer among the arguments. *)
Definition data_pointer_operations : list (method * list fmt * nat) :=
  [ (glTexSubImage3D,
     [fmt_i; fmt_i; fmt_i; fmt_i; fmt_i; fmt_I; fmt_I; fmt_I; fmt_i; fmt_i; fmt_O_PyLong],
     10%nat);
    (glGetTexImage, [fmt_i; fmt_i; fmt_i; fmt_i; fmt_O_PyLong], 4%nat);
    (glNamedBufferData, [fmt_k; fmt_k; fmt_O_PyLong; fmt_i], 2%nat) ].

Definition VertexAttribPointer_format : list fmt :=
  [fmt_I; fmt_i; fmt_i; fmt_p; fmt_I; fmt_O_PyLong].

Definition parses (args : PyObject) (fs : list fmt) : Prop :=
  exists vs, parse_tuple args fs = inr vs.

(** [PyLong_AsVoidPtr] gives NULL for the object in world [w]. *)
Definition decodes_to_null (l : PyObject) (w : world) : Prop :=
  fst (PyLong_AsVoidPtr l w) = inl 0.

(** ** Log retrieval, bootstrap and registry *)

(** The two log operations with the native functions they call. *)
Definition info_log_operations : list (method * string * string) :=
  [ (glGetProgramInfoLog, "glGetProgramiv", "glGetProgramInfoLog");
    (glGetShaderInfoLog, "glGetShaderiv", "glGetShaderInfoLog") ].

(** The same environment with another loader outcome. *)
Definition with_loader (init : Z) (storage rgb32 : bool) (E : Env) : Env :=
  {| APPLE := APPLE E; HAVE_glNamedBufferData := HAVE_glNamedBufferData E;
     HAVE_glCopyImageSubData := HAVE_glCopyImageSubData E;
     glewInit_result := fun _ => init;
     glewGetErrorString := glewGetErrorString E;
     GLEW_ARB_texture_storage := storage;
     GLEW_ARB_texture_buffer_object_rgb32 := rgb32;
     GLEW_ARB_copy_image := GLEW_ARB_copy_image E;
     GLEW_VERSION_4_5 := GLEW_VERSION_4_5 E;
     glGetError_result := glGetError_result E;
     glGetString_result := glGetString_result E;
     glCreateProgram_result := glCreateProgram_result E;
     glCreateShader_result := glCreateShader_result E;
     glGetiv_result := glGetiv_result E;
     glGetLocation_result := glGetLocation_result E;
     glGetInfoLog_result := glGetInfoLog_result E;
     glGen_result := glGen_result E;
     alloc_ok := alloc_ok E;
     alloc_addr := alloc_addr E;
     glGetTexImage_result := glGetTexImage_result E;
     nb_int := nb_int E;
     PyErr_Occurred_needs_thread_state := PyErr_Occurred_needs_thread_state E |}.

Definition missing_extension (name : string) : pyerr :=
  (PyExc_RuntimeError,
   "The OpenGL driver on this system is missing the required extension: ARB_" ++ name).

(** The namespace after publishing the constants [cs] in order. *)
Definition publish (cs : list (string * Z)) (module : namespace) : namespace :=
  fold_left (fun d kv => dict_set (fst kv) (snd kv) d) cs module.

(** The same environment with an allocator that refuses request [k]. *)
Definition refusing_at (k : nat) (E : Env) : Env :=
  {| APPLE := APPLE E; HAVE_glNamedBufferData := HAVE_glNamedBufferData E;
     HAVE_glCopyImageSubData := HAVE_glCopyImageSubData E;
     glewInit_result := glewInit_result E;
     glewGetErrorString := glewGetErrorString E;
     GLEW_ARB_texture_storage := GLEW_ARB_texture_storage E;
     GLEW_ARB_texture_buffer_object_rgb32 := GLEW_ARB_texture_buffer_object_rgb32 E;
     GLEW_ARB_copy_image := GLEW_ARB_copy_image E;
     GLEW_VERSION_4_5 := GLEW_VERSION_4_5 E;
     glGetError_result := glGetError_result E;
     glGetString_result := glGetString_result E;
     glCreateProgram_result := glCreateProgram_result E;
     glCreateShader_result := glCreateShader_result E;
     glGetiv_result := glGetiv_result E;
     glGetLocation_result := glGetLocation_result E;
     glGetInfoLog_result := glGetInfoLog_result E;
     glGen_result := glGen_result E;
     alloc_ok := fun j => negb (Nat.eqb j k);
     alloc_addr := alloc_addr E;
     glGetTexImage_result := glGetTexImage_result E;
     nb_int := nb_int E;
     PyErr_Occurred_needs_thread_state := PyErr_Occurred_needs_thread_state E |}.

(** ** Counting and balancing events *)

(** Number of error queries among the events. *)
Definition error_queries (new : list event) : nat :=
  List.length (filter is_error_query new).

(** Reading events in the order of execution: the raw blocks allocated
    and not yet freed. *)
Fixpoint live_blocks (evs : list event) (live : list Z) : list Z :=
  match evs with
  | [] => live
  | MemAlloc p _ :: r => live_blocks r (p :: live)
  | MemFree p :: r => live_blocks r (filter (fun q => negb (q =? p)) live)
  | _ :: r => live_blocks r live
  end.

Definition leak_free (new : list event) : bool :=
  match live_blocks (rev new) [] with
  | [] => true
  | _ => false
  end.

(** The events are calls of the native function [f]. *)
Definition calls (f : string) (e : event) : bool :=
  match e with
  | Call g _ => String.eqb g f
  | _ => false
  end.

(** The operations that contain neither CHECK_ERROR nor SET_GL_ERR. *)
Definition never_checks (m : method) : bool :=
  match m with
  | enable_automatic_opengl_error_checking | m_copy_image_sub_data | glewInit
  | glGetProgramInfoLog | glGetShaderInfoLog => true
  | _ => false
  end.

(** The format string of each METH_VARARGS function. *)
Definition format_of (m : method) : option (list fmt) :=
  match m with
  | m_copy_image_sub_data => Some [fmt_i; fmt_i; fmt_I; fmt_I; fmt_I]
  | glViewport => Some [fmt_I; fmt_I; fmt_I; fmt_I]
  | glClearColor => Some [fmt_f; fmt_f; fmt_f; fmt_f]
  | glGetProgramiv | glGetShaderiv => Some [fmt_I; fmt_i]
  | glUniform2ui => Some [fmt_i; fmt_I; fmt_I]
  | glUniform1i => Some [fmt_i; fmt_i]
  | glUniform2f => Some [fmt_i; fmt_f; fmt_f]
  | glUniform4f => Some [fmt_i; fmt_f; fmt_f; fmt_f; fmt_f]
  | glUniform3fv => Some [fmt_i; fmt_I; fmt_O_PyLong]
  | glGetUniformLocation | glGetAttribLocation => Some [fmt_I; fmt_s]
  | glShaderSource => Some [fmt_I; fmt_s_hash]
  | glVertexAttribPointer => Some VertexAttribPointer_format
  | glDrawArraysInstanced => Some [fmt_i; fmt_i; fmt_I; fmt_I]
  | glDrawArrays => Some [fmt_i; fmt_i; fmt_I]
  | glMultiDrawArrays => Some [fmt_i; fmt_O_PyLong; fmt_O_PyLong; fmt_I]
  | glAttachShader => Some [fmt_I; fmt_I]
  | glBindTexture | glBindBuffer => Some [fmt_i; fmt_I]
  | glTexParameteri => Some [fmt_i; fmt_i; fmt_i]
  | glPixelStorei | glBlendFunc => Some [fmt_i; fmt_i]
  | glTexBuffer => Some [fmt_i; fmt_i; fmt_I]
  | glTexStorage3D => Some [fmt_i; fmt_I; fmt_i; fmt_I; fmt_I; fmt_I]
  | glCopyImageSubData =>
      Some [fmt_I; fmt_i; fmt_i; fmt_i; fmt_i; fmt_i;
            fmt_I; fmt_i; fmt_i; fmt_i; fmt_i; fmt_i;
            fmt_I; fmt_I; fmt_I]
  | glTexSubImage3D =>
      Some [fmt_i; fmt_i; fmt_i; fmt_i; fmt_i; fmt_I; fmt_I; fmt_I; fmt_i; fmt_i; fmt_O_PyLong]
  | glGetTexImage => Some [fmt_i; fmt_i; fmt_i; fmt_i; fmt_O_PyLong]
  | glNamedBufferData => Some [fmt_k; fmt_k; fmt_O_PyLong; fmt_i]
  | _ => None
  end.

(** glCopyImageSubData can be called in this build and on this driver. *)
Definition copy_image_available (E : Env) : bool :=
  negb (APPLE E && negb (HAVE_glCopyImageSubData E)) && GLEW_ARB_copy_image E.

(** The same environment with another build configuration and loader
    report on glCopyImageSubData and OpenGL 4.5. *)
Definition with_platform (apple have_named have_copy copy_ext v45 : bool) (E : Env) : Env :=
  {| APPLE := apple; HAVE_glNamedBufferData := have_named;
     HAVE_glCopyImageSubData := have_copy;
     glewInit_result := glewInit_result E;
     glewGetErrorString := glewGetErrorString E;
     GLEW_ARB_texture_storage := GLEW_ARB_texture_storage E;
     GLEW_ARB_texture_buffer_object_rgb32 := GLEW_ARB_texture_buffer_object_rgb32 E;
     GLEW_ARB_copy_image := copy_ext;
     GLEW_VERSION_4_5 := v45;
     glGetError_result := glGetError_result E;
     glGetString_result := glGetString_result E;
     glCreateProgram_result := glCreateProgram_result E;
     glCreateShader_result := glCreateShader_result E;
     glGetiv_result := glGetiv_result E;
     glGetLocation_result := glGetLocation_result E;
     glGetInfoLog_result := glGetInfoLog_result E;
     glGen_result := glGen_result E;
     alloc_ok := alloc_ok E;
     alloc_addr := alloc_addr E;
     glGetTexImage_result := glGetTexImage_result E;
     nb_int := nb_int E;
     PyErr_Occurred_needs_thread_state := PyErr_Occurred_needs_thread_state E |}.

(** The conversion a function applies to its single integer argument. *)
Inductive conversion : Type := AsUnsignedLong | AsLong.

Definition converted (E : Env) (c : conversion) (o : PyObject) : Z * option pyerr :=
  match c with
  | AsUnsignedLong => as_unsigned_long o
  | AsLong => as_long E o
  end.

(** The functions that pass one converted integer to a native function
    returning nothing, with the native function, the arguments that
    precede the integer and the conversion used. *)
Definition single_integer_operations : list (method * string * list carg * conversion) :=
  [ (glLinkProgram, "glLinkProgram", [], AsUnsignedLong);
    (glUseProgram, "glUseProgram", [], AsUnsignedLong);
    (glBindVertexArray, "glBindVertexArray", [], AsUnsignedLong);
    (glDeleteProgram, "glDeleteProgram", [], AsUnsignedLong);
    (glDeleteShader, "glDeleteShader", [], AsUnsignedLong);
    (glCompileShader, "glCompileShader", [], AsUnsignedLong);
    (glDeleteTexture, "glDeleteTextures", [CInt 1], AsUnsignedLong);
    (glDeleteBuffer, "glDeleteBuffers", [CInt 1], AsUnsignedLong);
    (glActiveTexture, "glActiveTexture", [], AsLong);
    (glEnable, "glEnable", [], AsLong);
    (glDisable, "glDisable", [], AsLong);
    (glEnableVertexAttribArray, "glEnableVertexAttribArray", [], AsLong) ].

(** Lookup in a namespace. *)
Fixpoint dict_get (k : string) (d : namespace) : option Z :=
  match d with
  | [] => None
  | (k', v) :: d' => if String.eqb k k' then Some v else dict_get k d'
  end.


(** * Properties *)

Section BatchAllocation.

Variable E : Env.

Lemma fill_tuple_frame (arrays : nat -> Z) (todo : nat) :
  forall i ans w,
    trace (snd (fill_tuple E arrays todo i ans w)) = trace w /\
    _enable_error_checking (snd (fill_tuple E arrays todo i ans w)) = _enable_error_checking w.
Proof.
  induction todo as [|todo IH]; intros i ans w; cbn [fill_tuple].
  - split; reflexivity.
  - unfold bind, PyLong_FromUnsignedLong, new_object.
    destruct (alloc_ok E (allocs w)); cbv beta iota.
    + exact (IH (S i) (ans ++ [PyLong (arrays i)])%list (bump w)).
    + split; reflexivity.
Qed.

Lemma fill_tuple_ok (arrays : nat -> Z) (todo : nat) :
  forall i ans w,
    allocations_succeed E (allocs w) todo ->
    fill_tuple E arrays todo i ans w =
    (inl (Some (PyTuple (ans ++ map (fun j => PyLong (arrays j)) (seq i todo))%list)),
     bump_by todo w).
Proof.
  induction todo as [|todo IH]; intros i ans w Hok; cbn [fill_tuple seq map bump_by].
  - unfold ret. now rewrite app_nil_r.
  - unfold bind at 1, PyLong_FromUnsignedLong, new_object.
    rewrite (Hok (allocs w)) by lia. cbv beta iota.
    rewrite IH.
    + now rewrite <- app_assoc.
    + intros k Hk. apply Hok. cbn [allocs bump] in Hk. lia.
Qed.

Lemma nth_error_map_seq {A} (f : nat -> A) (n i : nat) :
  (i < n)%nat -> nth_error (map f (seq 0 n)) i = Some (f i).
Proof.
  intros Hi. rewrite nth_error_map, nth_error_seq.
  destruct (Nat.ltb_spec i n); [reflexivity | lia].
Qed.

End BatchAllocation.

Section BatchAllocationFacts.

Variable E : Env.

Lemma as_unsigned_long_in_range (n : Z) :
  0 <= n <= ULONG_MAX -> as_unsigned_long (PyLong n) = (n, None).
Proof.
  intros Hn. unfold as_unsigned_long.
  destruct (Z.ltb_spec n 0); [lia|].
  destruct (Z.ltb_spec ULONG_MAX n); [lia|]. reflexivity.
Qed.

(** Up to the capacity, a generator makes its native call and then at
    most the error query. *)
Lemma Gen_trace (native what : string) (n : Z) (w : world) :
  0 <= n <= 256 ->
  exists checks,
    trace (snd (Gen E native what (PyLong n) w)) =
      (checks ++ Call native [GLsizei n] :: trace w)%list /\
    forallb is_error_query checks = true.
Proof.
  intros Hn. unfold Gen, body, bind at 1, PyLong_AsUnsignedLong, raise_from.
  rewrite as_unsigned_long_in_range by (unfold ULONG_MAX; lia).
  cbn [fst snd].
  destruct (Z.ltb_spec 256 n); [lia|].
  unfold_monad; world_simpl.
  repeat (break_step; world_simpl);
    try (match goal with
         | H : fill_tuple _ ?a ?t ?i ?l ?w1 = (_, ?w2) |- _ =>
             let Hf := fresh in
             pose proof (fill_tuple_frame E a t i l w1) as [Hf _];
             rewrite H in Hf; cbn [snd] in Hf; rewrite Hf; world_simpl
         end);
    first [ exists []; split; reflexivity
          | exists [Call "glGetError" []]; split; reflexivity ].
Qed.

(** When the error check passes and the host can allocate the result, a
    generator returns what the driver left in the array. *)
Lemma Gen_result (native what : string) (n : Z) (w : world) :
  0 <= n <= 256 ->
  check_passes E w (Call native [GLsizei n] :: trace w) ->
  allocations_succeed E (allocs w) (if n =? 1 then 1 else S (Z.to_nat n)) ->
  fst (Gen E native what (PyLong n) w) =
    Some (if n =? 1 then PyLong (generated E (trace w) native n 0%nat)
          else PyTuple (map (fun i => PyLong (generated E (trace w) native n i))
                            (seq 0 (Z.to_nat n)))).
Proof.
  intros Hn Hcheck Halloc.
  unfold Gen, body, bind at 1, PyLong_AsUnsignedLong, raise_from.
  rewrite as_unsigned_long_in_range by (unfold ULONG_MAX; lia).
  cbn [fst snd].
  destruct (Z.ltb_spec 256 n); [lia|].
  assert (Hcontinue :
            forall k : unit -> Py PyRet,
              bind (CHECK_ERROR E) k (emit (Call native [GLsizei n]) w) =
              k tt (if _enable_error_checking w
                    then emit (Call "glGetError" []) (emit (Call native [GLsizei n]) w)
                    else emit (Call native [GLsizei n]) w)).
  { intros k. unfold CHECK_ERROR, SET_GL_ERR, glGetError. unfold_monad. world_simpl.
    destruct (_enable_error_checking w) eqn:Hflag; [|reflexivity].
    destruct Hcheck as [Hoff | [Hnone Hcode]]; [congruence|].
    world_simpl. rewrite Hcode. cbn [gl_error_exception Z.eqb GL_NO_ERROR].
    world_simpl. rewrite Hnone. reflexivity. }
  unfold history at 1, gl at 1, tell at 1. unfold bind at 1 2. cbv beta iota.
  rewrite Hcontinue.
  set (w1 := if _enable_error_checking w then _ else _).
  assert (Hallocs : allocs w1 = allocs w) by (subst w1; destruct (_enable_error_checking w); reflexivity).
  destruct (Z.eqb_spec n 1) as [-> | Hn1].
  - unfold PyLong_FromUnsignedLong, new_object, bind, return_.
    rewrite Hallocs, (Halloc (allocs w)) by lia. reflexivity.
  - unfold PyTuple_New, new_object. unfold bind at 1.
    rewrite Hallocs, (Halloc (allocs w)) by lia. cbv beta iota.
    unfold bind at 1.
    rewrite fill_tuple_ok.
    + reflexivity.
    + intros k Hk. apply Halloc. cbn [allocs bump] in Hk. lia.
Qed.

End BatchAllocationFacts.

Lemma batch_allocator_is_Gen (E : Env) (m : method) (native : string) :
  In (m, native) batch_allocators ->
  exists what, GL_METHODS E m = Gen E native what.
Proof.
  intros [H | [H | [H | []]]]; inversion H; subst; cbn [GL_METHODS]; eexists; reflexivity.
Qed.

(** C1. For a count N with 1 <= N <= 256, each of GenVertexArrays,
    GenTextures and GenBuffers issues one native generate call (followed at
    most by the error query); when the error check passes and the host can
    allocate the result, it returns the handles the driver left in the
    array, in the driver's order: for N = 1 the single handle as an int,
    for N > 1 a tuple of length N whose i-th item is the i-th handle. *)
Theorem batch_allocation_returns_handles
  (E : Env) (m : method) (native : string) (n : Z) (w : world) :
  In (m, native) batch_allocators ->
  1 <= n <= 256 ->
  let call := Call native [GLsizei n] in
  let out := generated E (trace w) native n in
  let r := fst (GL_METHODS E m (PyLong n) w) in
  let w' := snd (GL_METHODS E m (PyLong n) w) in
  (exists checks, trace w' = (checks ++ call :: trace w)%list /\
                  forallb is_error_query checks = true) /\
  (check_passes E w (call :: trace w) ->
   allocations_succeed E (allocs w) (if n =? 1 then 1 else S (Z.to_nat n)) ->
   (n = 1 -> r = Some (PyLong (out 0%nat))) /\
   (1 < n ->
    exists items,
      r = Some (PyTuple items) /\
      List.length items = Z.to_nat n /\
      forall i, (i < Z.to_nat n)%nat -> nth_error items i = Some (PyLong (out i)))).
Proof.
  intros Hm Hn call out r w'.
  destruct (batch_allocator_is_Gen E _ _ Hm) as [what Hgen].
  subst r w'. rewrite Hgen. split.
  - apply Gen_trace. lia.
  - intros Hcheck Halloc.
    pose proof (Gen_result E native what n w ltac:(lia) Hcheck Halloc) as Hr.
    split.
    + intros ->. exact Hr.
    + intros Hgt. destruct (Z.eqb_spec n 1) as [|_]; [lia|].
      eexists. split; [exact Hr|]. split.
      * now rewrite length_map, length_seq.
      * intros i Hi. now apply (nth_error_map_seq (fun j => PyLong (out j))).
Qed.

Lemma batch_allocation_returns_handles_witness :
  (exists items,
     fst (GL_METHODS quiet_env glGenTextures (PyLong 3) module_load) = Some (PyTuple items) /\
     List.length items = 3%nat /\
     forall i, (i < 3)%nat ->
       nth_error items i = Some (PyLong (generated quiet_env [] "glGenTextures" 3 i))) /\
  fst (GL_METHODS quiet_env glGenBuffers (PyLong 1) module_load) =
    Some (PyLong (generated quiet_env [] "glGenBuffers" 1 0%nat)).
Proof.
  split.
  - destruct (batch_allocation_returns_handles quiet_env glGenTextures "glGenTextures" 3
                module_load) as [_ H].
    + simpl; auto.
    + lia.
    + destruct H as [_ H].
      * right. split; reflexivity.
      * intros k _. reflexivity.
      * apply H. lia.
  - destruct (batch_allocation_returns_handles quiet_env glGenBuffers "glGenBuffers" 1
                module_load) as [_ H].
    + simpl; auto.
    + lia.
    + destruct H as [H _].
      * right. split; reflexivity.
      * intros k _. reflexivity.
      * exact (H eq_refl).
Defined.

(** C2. For a count N > 256, each of GenVertexArrays, GenTextures and
    GenBuffers fails with ValueError and leaves the trace as it was: no
    native call is issued, whatever the error-checking flag and the driver
    state. *)
Theorem batch_allocation_over_capacity
  (E : Env) (m : method) (native : string) (n : Z) (w : world) :
  In (m, native) batch_allocators ->
  256 < n ->
  exists msg,
    GL_METHODS E m (PyLong n) w = (None, set_err (Some (PyExc_ValueError, msg)) w).
Proof.
  intros Hm Hn.
  destruct (batch_allocator_is_Gen E _ _ Hm) as [what Hgen]. rewrite Hgen.
  unfold Gen, body, bind at 1, PyLong_AsUnsignedLong, raise_from.
  assert (Hbig : (256 <? fst (as_unsigned_long (PyLong n))) = true).
  { unfold as_unsigned_long. destruct (Z.ltb_spec n 0); [lia|].
    destruct (Z.ltb_spec ULONG_MAX n); cbn [fst]; [reflexivity|].
    apply Z.ltb_lt. lia. }
  destruct (snd (as_unsigned_long (PyLong n))); rewrite Hbig;
    eexists; unfold fail_with, PyErr_SetString, bind, return_; reflexivity.
Qed.

Lemma batch_allocation_over_capacity_witness :
  exists msg,
    GL_METHODS quiet_env glGenVertexArrays (PyLong 257) module_load =
      (None, set_err (Some (PyExc_ValueError, msg)) module_load).
Proof.
  apply (batch_allocation_over_capacity quiet_env glGenVertexArrays "glGenVertexArrays" 257).
  - simpl; auto.
  - lia.
Defined.

(** C10. For the count 0, each of GenVertexArrays, GenTextures and
    GenBuffers issues the native generate call with count 0 and, when the
    error check passes and the host can allocate the tuple, returns the
    empty tuple: not an int and not an error. *)
Theorem batch_allocation_of_zero
  (E : Env) (m : method) (native : string) (w : world) :
  In (m, native) batch_allocators ->
  let call := Call native [GLsizei 0] in
  let r := fst (GL_METHODS E m (PyLong 0) w) in
  let w' := snd (GL_METHODS E m (PyLong 0) w) in
  (exists checks, trace w' = (checks ++ call :: trace w)%list /\
                  forallb is_error_query checks = true) /\
  (check_passes E w (call :: trace w) ->
   alloc_ok E (allocs w) = true ->
   r = Some (PyTuple [])).
Proof.
  intros Hm call r w'.
  destruct (batch_allocator_is_Gen E _ _ Hm) as [what Hgen].
  subst r w'. rewrite Hgen. split.
  - apply Gen_trace. lia.
  - intros Hcheck Halloc.
    apply (Gen_result E native what 0 w); [lia | exact Hcheck |].
    intros k Hk. cbn in Hk. replace k with (allocs w) by lia. exact Halloc.
Qed.

Lemma batch_allocation_of_zero_witness :
  fst (GL_METHODS quiet_env glGenBuffers (PyLong 0) module_load) = Some (PyTuple []) /\
  trace (snd (GL_METHODS quiet_env glGenBuffers (PyLong 0) module_load)) =
    [Call "glGetError" []; Call "glGenBuffers" [CInt 0]].
Proof.
  destruct (batch_allocation_of_zero quiet_env glGenBuffers "glGenBuffers" module_load)
    as [_ H].
  - simpl; auto.
  - split; [|reflexivity].
    apply H; [right; split; reflexivity | reflexivity].
Defined.

(** ** The error translator *)

(** The switch of SET_GL_ERR gives the unknown-error message without the
    code: at the code 0x0507 the message holds neither 1287 nor 507. *)
Lemma unknown_error_message_omits_code :
  let E := with_glGetError (fun _ => 0x0507) quiet_env in
  exists msg,
    error_indicator (snd (SET_GL_ERR E module_load)) = Some (PyExc_RuntimeError, msg) /\
    includes_code msg 0x0507 = false.
Proof.
  eexists. split; [reflexivity | vm_compute; reflexivity].
Qed.

(** C5 (amended). The translator queries the native error once and maps
    the code: GL_NO_ERROR leaves the error indicator alone; invalid enum,
    invalid value, invalid operation and invalid framebuffer operation
    raise ValueError; out of memory raises MemoryError; stack underflow and
    overflow raise OverflowError; every other code raises RuntimeError with
    the fixed message "An unknown OpenGL error occurred.", which does not
    carry the code. *)
Theorem error_translator_mapping (E : Env) (w : world) :
  let code := to_uint (glGetError_result E (trace w)) in
  let w' := snd (SET_GL_ERR E w) in
  trace w' = Call "glGetError" [] :: trace w /\
  (code = GL_NO_ERROR -> error_indicator w' = error_indicator w) /\
  (In code argument_or_state_errors ->
   exists msg, error_indicator w' = Some (PyExc_ValueError, msg)) /\
  (code = GL_OUT_OF_MEMORY ->
   exists msg, error_indicator w' = Some (PyExc_MemoryError, msg)) /\
  (In code stack_errors ->
   exists msg, error_indicator w' = Some (PyExc_OverflowError, msg)) /\
  (~ In code named_errors ->
   error_indicator w' = Some (PyExc_RuntimeError, "An unknown OpenGL error occurred.")).
Proof.
  intros code w'. subst w'.
  unfold SET_GL_ERR, glGetError, history, gl, tell, bind, ret, PyErr_SetString.
  cbv beta iota. fold code.
  split.
  { destruct (gl_error_exception code) as [[e msg]|]; reflexivity. }
  split.
  { intros ->. reflexivity. }
  split.
  { intros [H | [H | [H | [H | []]]]]; rewrite <- H; eexists; reflexivity. }
  split.
  { intros ->. eexists; reflexivity. }
  split.
  { intros [H | [H | []]]; rewrite <- H; eexists; reflexivity. }
  intros Hother.
  assert (Hne : forall c, In c named_errors -> (code =? c) = false).
  { intros c Hc. apply Z.eqb_neq. intros ->. exact (Hother Hc). }
  unfold gl_error_exception.
  rewrite !Hne by (unfold named_errors, argument_or_state_errors, stack_errors; simpl; tauto).
  reflexivity.
Qed.

Lemma error_translator_mapping_witness :
  error_indicator (snd (SET_GL_ERR (with_glGetError (fun _ => 0x0505) quiet_env) module_load))
  <> error_indicator (snd (SET_GL_ERR (with_glGetError (fun _ => 0x0501) quiet_env) module_load))
  /\ error_indicator (snd (SET_GL_ERR (with_glGetError (fun _ => 0x0507) quiet_env) module_load))
     = Some (PyExc_RuntimeError, "An unknown OpenGL error occurred.").
Proof.
  destruct (error_translator_mapping (with_glGetError (fun _ => 0x0505) quiet_env) module_load)
    as (_ & _ & _ & Hmem & _ & _).
  destruct (error_translator_mapping (with_glGetError (fun _ => 0x0501) quiet_env) module_load)
    as (_ & _ & Hval & _ & _ & _).
  destruct (error_translator_mapping (with_glGetError (fun _ => 0x0507) quiet_env) module_load)
    as (_ & _ & _ & _ & _ & Hunk).
  split.
  - destruct Hmem as [m1 H1]; [reflexivity|].
    destruct Hval as [m2 H2]; [simpl; auto|].
    rewrite H1, H2. discriminate.
  - apply Hunk. vm_compute. intuition discriminate.
Defined.

(** ** The blocking-call gate *)

Ltac use_fill_tuple_frame :=
  match goal with
  | H : fill_tuple ?E ?a ?t ?i ?l ?w1 = (_, ?w2) |- _ =>
      let Hf := fresh in
      let Hg := fresh in
      pose proof (fill_tuple_frame E a t i l w1) as [Hf Hg];
      rewrite H in Hf, Hg; cbn [snd] in Hf, Hg; rewrite ?Hf, ?Hg; world_simpl
  end.



(** ** The error-checking flag *)

Ltac env_simpl :=
  cbn [with_glGetError APPLE HAVE_glNamedBufferData HAVE_glCopyImageSubData
       glewInit_result glewGetErrorString GLEW_ARB_texture_storage
       GLEW_ARB_texture_buffer_object_rgb32 GLEW_ARB_copy_image GLEW_VERSION_4_5
       glGetError_result glGetString_result glCreateProgram_result
       glCreateShader_result glGetiv_result glGetLocation_result
       glGetInfoLog_result glGen_result alloc_ok alloc_addr
       glGetTexImage_result nb_int PyErr_Occurred_needs_thread_state] in *.

Lemma fill_tuple_with_glGetError (g : list event -> Z) (E : Env) (arrays : nat -> Z)
  (todo : nat) :
  forall i ans w,
    fill_tuple (with_glGetError g E) arrays todo i ans w = fill_tuple E arrays todo i ans w.
Proof.
  induction todo as [|todo IH]; intros i ans w; cbn [fill_tuple]; [reflexivity|].
  unfold bind, PyLong_FromUnsignedLong, new_object. env_simpl.
  destruct (alloc_ok E (allocs w)); cbv beta iota; [apply IH | reflexivity].
Qed.

Ltac same_fill_tuple :=
  match goal with
  | H1 : fill_tuple (with_glGetError ?g ?E) ?a ?t ?i ?l ?w1 = _,
    H2 : fill_tuple ?E ?a ?t ?i ?l ?w1 = _ |- _ =>
      rewrite fill_tuple_with_glGetError in H1; rewrite H1 in H2;
      inversion H2; subst
  end.

(** With the flag off, the answer to [glGetError] is never read, except
    by the two operations that translate on their own. *)
Lemma flag_off_ignores_native_errors
  (E : Env) (m : method) (args : PyObject) (w : world) (g : list event -> Z) :
  translates_unconditionally m = false ->
  _enable_error_checking w = false ->
  GL_METHODS (with_glGetError g E) m args w = GL_METHODS E m args w.
Proof.
  intros Hm Hflag.
  destruct m; try discriminate Hm; cbn [GL_METHODS].
  all: unfold_api; unfold generated; unfold_monad; world_simpl; env_simpl.
  all: try change (as_long (with_glGetError g E) args) with (as_long E args).
  all: repeat (break_step; world_simpl; env_simpl); try congruence.
  all: try (same_fill_tuple; congruence).
Qed.

Lemma flag_off_no_error_query
  (E : Env) (m : method) (args : PyObject) (w : world) :
  translates_unconditionally m = false ->
  _enable_error_checking w = false ->
  exists new,
    emitted (GL_METHODS E m args) w new /\ existsb is_error_query new = false.
Proof.
  intros Hm Hflag. unfold emitted.
  destruct m; try discriminate Hm; cbn [GL_METHODS].
  all: run_body; try congruence.
  all: try use_fill_tuple_frame.
  all: eexists; (split; [split_trace | reflexivity]).
Qed.

(** With the flag on, an operation written with CHECK_ERROR that gets as
    far as its native call ends with the error query, and a code other
    than GL_NO_ERROR makes it fail with the translated exception.  Runs in
    which the process dies are left out. *)
Lemma flag_on_translator_runs
  (E : Env) (m : method) (args : PyObject) (w : world) :
  uses_CHECK_ERROR m = true ->
  _enable_error_checking w = true ->
  exists new,
    emitted (GL_METHODS E m args) w new /\
    (new = [] \/
     died new = true \/
     exists before,
       new = Call "glGetError" [] :: before /\
       let raised :=
         gl_error_exception (to_uint (glGetError_result E (before ++ trace w)%list)) in
       (raised <> None ->
        fst (GL_METHODS E m args w) = None /\
        error_indicator (snd (GL_METHODS E m args w)) = raised)).
Proof.
  intros Hm Hflag. unfold emitted.
  destruct m; try discriminate Hm; cbn [GL_METHODS].
  all: run_body; try congruence.
  all: try use_fill_tuple_frame.
  all: eexists; (split; [split_trace|]).
  all: first
         [ left; reflexivity
         | right; left; reflexivity
         | right; right; eexists; split; [reflexivity|];
           cbn [app]; intros Hraised;
           first [ split; [reflexivity | symmetry; eassumption]
                 | exfalso; apply Hraised; eassumption ] ].
Qed.

(** The operations without CHECK_ERROR, the toggle apart, do not read the
    flag: with another value of the flag they do the same and leave that
    value. *)
Lemma flag_is_not_read_elsewhere
  (E : Env) (m : method) (args : PyObject) (w : world) (b : bool) :
  uses_CHECK_ERROR m = false ->
  m <> enable_automatic_opengl_error_checking ->
  GL_METHODS E m args (set_flag b w) =
    (fst (GL_METHODS E m args w), set_flag b (snd (GL_METHODS E m args w))).
Proof.
  intros Hm Htoggle.
  destruct m; try discriminate Hm; try congruence; cbn [GL_METHODS].
  all: run_body; reflexivity.
Qed.

(** Whatever the flag, GetString translates when the driver returns NULL
    and CreateProgram when it returns 0: they query the native error, fail,
    and a code other than GL_NO_ERROR sets the translated exception. *)
Lemma GetString_translates_on_NULL (E : Env) (val : PyObject) (w : world) :
  let name := fst (as_unsigned_long val) in
  let call := Call "glGetString" [GLenum name] in
  let raised := gl_error_exception (to_uint (glGetError_result E (call :: trace w))) in
  glGetString_result E (trace w) (to_uint name) = None ->
  fst (GL_METHODS E glGetString val w) = None /\
  trace (snd (GL_METHODS E glGetString val w)) = Call "glGetError" [] :: call :: trace w /\
  (forall e, raised = Some e -> error_indicator (snd (GL_METHODS E glGetString val w)) = Some e).
Proof.
  intros name call raised Hnull. subst name call raised.
  cbn [GL_METHODS]. unfold GetString. unfold_monad.
  destruct (snd (as_unsigned_long val)); world_simpl; rewrite Hnull; world_simpl;
    destruct (gl_error_exception _) as [[e0 msg]|]; world_simpl;
    (split; [reflexivity | split; [reflexivity|]]); intros e He;
    first [exact He | discriminate He].
Qed.

Lemma CreateProgram_translates_on_zero (E : Env) (args : PyObject) (w : world) :
  let call := Call "glCreateProgram" [] in
  let raised := gl_error_exception (to_uint (glGetError_result E (call :: trace w))) in
  to_uint (glCreateProgram_result E (trace w)) = 0 ->
  fst (GL_METHODS E glCreateProgram args w) = None /\
  trace (snd (GL_METHODS E glCreateProgram args w)) =
    Call "glGetError" [] :: call :: trace w /\
  (forall e, raised = Some e ->
     error_indicator (snd (GL_METHODS E glCreateProgram args w)) = Some e).
Proof.
  intros call raised Hzero. subst call raised.
  cbn [GL_METHODS]. unfold CreateProgram. unfold_monad. world_simpl.
  rewrite Hzero. cbn [Z.eqb]. world_simpl.
  destruct (gl_error_exception _) as [[e0 msg]|]; world_simpl;
    (split; [reflexivity | split; [reflexivity|]]); intros e He;
    first [exact He | discriminate He].
Qed.

(** With the flag off, GetString still queries the native error when the
    driver returns NULL, and fails with the translated exception. *)
Lemma GetString_translates_with_flag_off :
  let E := with_glGetString (fun _ _ => None)
             (with_glGetError (fun _ => GL_INVALID_ENUM) quiet_env) in
  let w := set_flag false module_load in
  _enable_error_checking w = false /\
  fst (GL_METHODS E glGetString (PyLong 0x1F02) w) = None /\
  error_indicator (snd (GL_METHODS E glGetString (PyLong 0x1F02) w)) =
    Some (PyExc_ValueError, "An enum value is invalid (GL_INVALID_ENUM)") /\
  trace (snd (GL_METHODS E glGetString (PyLong 0x1F02) w)) =
    [Call "glGetError" []; Call "glGetString" [CInt 0x1F02]].
Proof.
  repeat split; reflexivity.
Qed.

(** C3 (amended). The flag is on at module load and the toggle sets it to
    the truth value of its argument.  While it is off, no operation other
    than GetString and CreateProgram queries the native error, and the
    result of such an operation does not depend on what the driver would
    answer.  While it is on, every operation written with CHECK_ERROR that
    gets as far as its native call ends with the error query and fails
    with the translated exception when the code is not GL_NO_ERROR (runs in
    which the process dies are left out).  Whatever the flag, GetString
    runs the translator when the driver returns NULL and CreateProgram when
    it returns 0; the operations without CHECK_ERROR, the toggle apart, do
    not read the flag. *)
Theorem error_checking_flag_gates_translator
  (E : Env) (m : method) (args : PyObject) (w : world) :
  _enable_error_checking module_load = true /\
  (forall val,
     enable_automatic_error_checking val w =
       (Some Py_None, set_flag (PyObject_IsTrue val) w)) /\
  (translates_unconditionally m = false ->
   _enable_error_checking w = false ->
   (forall g, GL_METHODS (with_glGetError g E) m args w = GL_METHODS E m args w) /\
   (exists new,
      emitted (GL_METHODS E m args) w new /\ existsb is_error_query new = false)) /\
  (uses_CHECK_ERROR m = true ->
   _enable_error_checking w = true ->
   exists new,
     emitted (GL_METHODS E m args) w new /\
     (new = [] \/
      died new = true \/
      exists before,
        new = Call "glGetError" [] :: before /\
        let raised :=
          gl_error_exception (to_uint (glGetError_result E (before ++ trace w)%list)) in
        (raised <> None ->
         fst (GL_METHODS E m args w) = None /\
         error_indicator (snd (GL_METHODS E m args w)) = raised))) /\
  (let name := fst (as_unsigned_long args) in
   let call := Call "glGetString" [GLenum name] in
   let raised := gl_error_exception (to_uint (glGetError_result E (call :: trace w))) in
   glGetString_result E (trace w) (to_uint name) = None ->
   fst (GL_METHODS E glGetString args w) = None /\
   trace (snd (GL_METHODS E glGetString args w)) = Call "glGetError" [] :: call :: trace w /\
   (forall e, raised = Some e ->
      error_indicator (snd (GL_METHODS E glGetString args w)) = Some e)) /\
  (let call := Call "glCreateProgram" [] in
   let raised := gl_error_exception (to_uint (glGetError_result E (call :: trace w))) in
   to_uint (glCreateProgram_result E (trace w)) = 0 ->
   fst (GL_METHODS E glCreateProgram args w) = None /\
   trace (snd (GL_METHODS E glCreateProgram args w)) =
     Call "glGetError" [] :: call :: trace w /\
   (forall e, raised = Some e ->
      error_indicator (snd (GL_METHODS E glCreateProgram args w)) = Some e)) /\
  (uses_CHECK_ERROR m = false ->
   m <> enable_automatic_opengl_error_checking ->
   forall b,
     GL_METHODS E m args (set_flag b w) =
       (fst (GL_METHODS E m args w), set_flag b (snd (GL_METHODS E m args w)))).
Proof.
  split; [reflexivity|].
  split; [intros val; reflexivity|].
  split.
  { intros Hm Hflag. split.
    - intros g. now apply flag_off_ignores_native_errors.
    - now apply flag_off_no_error_query. }
  split; [apply flag_on_translator_runs|].
  split; [apply GetString_translates_on_NULL|].
  split; [apply CreateProgram_translates_on_zero|].
  intros Hm Htoggle b. now apply flag_is_not_read_elsewhere.
Qed.

(** Toggle off, bind a texture under a pending GL_INVALID_ENUM, toggle
    on, bind again; and CreateProgram with the flag off on a driver that
    returns 0 under GL_OUT_OF_MEMORY. *)
Lemma error_checking_flag_gates_translator_witness :
  let E := with_glGetError (fun _ => GL_INVALID_ENUM) quiet_env in
  let bind_tex := PyTuple [PyLong 0x8C1A; PyLong 7] in
  let w1 := snd (enable_automatic_error_checking (PyLong 0) module_load) in
  let w2 := snd (GL_METHODS E glBindTexture bind_tex w1) in
  let w3 := snd (enable_automatic_error_checking (PyLong 1) w2) in
  GL_METHODS E glBindTexture bind_tex w1 = GL_METHODS quiet_env glBindTexture bind_tex w1 /\
  (exists new,
    emitted (GL_METHODS E glBindTexture bind_tex) w3 new /\
    (new = [] \/
     died new = true \/
     exists before,
       new = Call "glGetError" [] :: before /\
       let raised :=
         gl_error_exception (to_uint (glGetError_result E (before ++ trace w3)%list)) in
       (raised <> None ->
        fst (GL_METHODS E glBindTexture bind_tex w3) = None /\
        error_indicator (snd (GL_METHODS E glBindTexture bind_tex w3)) = raised))) /\
  error_indicator
    (snd (GL_METHODS (with_glGetError (fun _ => GL_OUT_OF_MEMORY) no_program_env)
            glCreateProgram Py_None w1)) =
    Some (PyExc_MemoryError,
          "There is not enough memory left to execute the command. (GL_OUT_OF_MEMORY)").
Proof.
  intros E bind_tex w1 w2 w3.
  split; [|split].
  - destruct (error_checking_flag_gates_translator quiet_env glBindTexture bind_tex w1)
      as (_ & _ & Hoff & _).
    destruct Hoff as [Hsame _]; [reflexivity | reflexivity |].
    exact (Hsame (fun _ => GL_INVALID_ENUM)).
  - destruct (error_checking_flag_gates_translator E glBindTexture bind_tex w3)
      as (_ & _ & _ & Hon & _).
    apply Hon; reflexivity.
  - destruct (error_checking_flag_gates_translator
                (with_glGetError (fun _ => GL_OUT_OF_MEMORY) no_program_env)
                glCreateProgram Py_None w1) as (_ & _ & _ & _ & _ & Hcreate & _).
    destruct Hcreate as (_ & _ & Hraised); [reflexivity|].
    apply Hraised. reflexivity.
Defined.
(** ** Null pointers *)

Lemma PyLong_AsVoidPtr_run (o : PyObject) (w : world) :
  exists p w',
    PyLong_AsVoidPtr o w = (inl p, w') /\
    (w' = w \/ exists e, w' = set_err (Some e) w).
Proof.
  unfold PyLong_AsVoidPtr, raise_from, bind, PyErr_Occurred, ret.
  destruct (snd (as_long_or_unsigned_long o)) as [e|]; world_simpl.
  - destruct (_ && _); do 2 eexists; (split; [reflexivity | right; eexists; reflexivity]).
  - destruct (error_indicator w); destruct (_ && _);
      do 2 eexists; (split; [reflexivity | left; reflexivity]).
Qed.

Lemma convert_O_PyLong (o v : PyObject) :
  convert fmt_O_PyLong o = inr v -> v = o.
Proof.
  destruct o; cbn; intros H; now inversion H.
Qed.

Ltac split_vals vs :=
  cbn [vals ctype] in vs;
  repeat match goal with
         | v : (_ * _)%type |- _ => destruct v
         | v : unit |- _ => destruct v
         end.

Ltac invert_convert_all H :=
  unfold parse_tuple in H;
  repeat match type of H with
         | context [List.length ?items] =>
             is_var items; destruct items as [|? items];
             cbn [List.length Nat.eqb] in H; try discriminate H
         end;
  cbn [convert_all] in H;
  repeat match type of H with
         | context [match convert ?f ?o with _ => _ end] =>
             let Hc := fresh "Hconv" in
             destruct (convert f o) eqn:Hc; try discriminate H
         end;
  injection H as <-; intros; subst.


(** After [invert_convert_all]: the pointer argument is [l] and decodes
    to NULL, so the function stops at the test of the pointer. *)
Ltac pointer_is_null Hnth Hnull l w :=
  match goal with
  | H : convert fmt_O_PyLong _ = inr _ |- _ => apply convert_O_PyLong in H; subst
  end;
  cbn [nth_error] in Hnth; injection Hnth as Hnth; subst;
  let q := fresh "q" in
  let w' := fresh "w'" in
  let Hrun := fresh "Hrun" in
  let Hw' := fresh "Hw'" in
  destruct (PyLong_AsVoidPtr_run l w) as (q & w' & Hrun & Hw');
  unfold decodes_to_null in Hnull; rewrite Hrun in Hnull; cbn [fst] in Hnull;
  injection Hnull as Hnull; subst q;
  unfold bind at 1, ret; cbv beta iota; unfold bind at 1; rewrite Hrun.

Section NullPointers.

Variable E : Env.

Lemma null_rejected (m : method) (fs : list fmt) (pos : nat)
  (items : list PyObject) (l : PyObject) (w : world) :
  In (m, fs, pos) data_pointer_operations ->
  parses (PyTuple items) fs ->
  nth_error items pos = Some l ->
  decodes_to_null l w ->
  GL_METHODS E m (PyTuple items) w =
    (None, set_err (Some (PyExc_TypeError, "Not a valid data pointer")) w).
Proof.
  intros Hm [vs Hparse] Hnth Hnull.
  destruct Hm as [Hm | [Hm | [Hm | []]]]; inversion Hm; subst; clear Hm;
    cbn [GL_METHODS];
    unfold TexSubImage3D, GetTexImage, NamedBufferData, body, PyArg_ParseTuple;
    rewrite Hparse; split_vals vs; invert_convert_all Hparse;
    pointer_is_null Hnth Hnull l w;
    unfold require_data, fail_with, PyErr_SetString, bind, return_; cbn [Z.eqb];
    destruct Hw' as [-> | [e ->]]; reflexivity.
Qed.

Lemma VertexAttribPointer_null_offset (items : list PyObject) (l : PyObject) (w : world) :
  parses (PyTuple items) VertexAttribPointer_format ->
  nth_error items 5 = Some l ->
  decodes_to_null l w ->
  exists new a,
    emitted (VertexAttribPointer E (PyTuple items)) w new /\
    In (Call "glVertexAttribPointer" (a ++ [CPtr 0])%list) new.
Proof.
  intros [vs Hparse] Hnth Hnull. unfold VertexAttribPointer_format in *.
  unfold emitted, VertexAttribPointer, body, PyArg_ParseTuple.
  rewrite Hparse; split_vals vs; invert_convert_all Hparse.
  pointer_is_null Hnth Hnull l w.
  assert (Htrace : trace w' = trace w) by (destruct Hw' as [-> | [e ->]]; reflexivity).
  cbv beta iota. unfold_monad; world_simpl.
  repeat (break_step; world_simpl).
  all: rewrite Htrace.
  all: eexists; eexists (_ :: _ :: _ :: _ :: _ :: nil);
    (split; [split_trace | cbn [app In]; auto]).
Qed.

End NullPointers.

(** VertexAttribPointer passes a null offset on to the driver and
    succeeds. *)
Lemma VertexAttribPointer_forwards_null :
  let args := PyTuple [PyLong 0; PyLong 3; PyLong 0x1406; PyLong 0; PyLong 0; PyLong 0] in
  decodes_to_null (PyLong 0) module_load /\
  fst (GL_METHODS quiet_env glVertexAttribPointer args module_load) = Some Py_None /\
  trace (snd (GL_METHODS quiet_env glVertexAttribPointer args module_load)) =
    [Call "glGetError" [];
     Call "glVertexAttribPointer" [CInt 0; CInt 3; CInt 0x1406; CInt 0; CInt 0; CPtr 0]].
Proof.
  repeat split; reflexivity.
Qed.

(** C4 (amended). TexSubImage3D, GetTexImage and NamedBufferData fail with
    TypeError when their pointer argument decodes to NULL, without any
    native call and whatever the error-checking flag and the driver state;
    VertexAttribPointer, whose last argument is an offset, passes a null
    value on to glVertexAttribPointer. *)
Theorem null_data_pointer_rejected
  (E : Env) (items : list PyObject) (l : PyObject) (w : world) :
  decodes_to_null l w ->
  (forall m fs pos,
     In (m, fs, pos) data_pointer_operations ->
     parses (PyTuple items) fs ->
     nth_error items pos = Some l ->
     GL_METHODS E m (PyTuple items) w =
       (None, set_err (Some (PyExc_TypeError, "Not a valid data pointer")) w)) /\
  (parses (PyTuple items) VertexAttribPointer_format ->
   nth_error items 5 = Some l ->
   exists new a,
     emitted (GL_METHODS E glVertexAttribPointer (PyTuple items)) w new /\
     In (Call "glVertexAttribPointer" (a ++ [CPtr 0])%list) new).
Proof.
  intros Hnull. split.
  - intros m fs pos Hm Hparse Hnth. now apply (null_rejected E m fs pos items l w).
  - intros Hparse Hnth. now apply (VertexAttribPointer_null_offset E items l w).
Qed.

Lemma null_data_pointer_rejected_witness :
  let items := [PyLong 0x8C1A; PyLong 0; PyLong 0x1908; PyLong 0x1401; PyLong 0] in
  let w := set_flag false module_load in
  GL_METHODS quiet_env glGetTexImage (PyTuple items) w =
    (None, set_err (Some (PyExc_TypeError, "Not a valid data pointer")) w).
Proof.
  intros items w.
  destruct (null_data_pointer_rejected quiet_env items (PyLong 0) w) as [H _].
  - reflexivity.
  - apply (H glGetTexImage [fmt_i; fmt_i; fmt_i; fmt_i; fmt_O_PyLong] 4%nat).
    + simpl; auto.
    + eexists; reflexivity.
    + reflexivity.
Defined.

(** ** Log retrieval *)

Lemma info_log_operation_is_InfoLog (E : Env) (m : method) (getiv fetch : string) :
  In (m, getiv, fetch) info_log_operations ->
  GL_METHODS E m = InfoLog E getiv fetch.
Proof.
  intros [H | [H | []]]; inversion H; subst; reflexivity.
Qed.

(** C6. For a program or shader handle, GetProgramInfoLog and
    GetShaderInfoLog first query GL_INFO_LOG_LENGTH, allocate a scratch
    buffer of that length plus 10 bytes, call the native fetch with the
    queried length as buffer size, build the result from the first bytes of
    the buffer up to the length the fetch reported, and free the buffer
    whether or not the result could be built; when the reported length is 0
    the result is the empty bytes object and the buffer is still allocated
    and freed. *)
Theorem info_log_retrieval
  (E : Env) (m : method) (getiv fetch : string) (id : Z) (w : world) :
  In (m, getiv, fetch) info_log_operations ->
  0 <= id <= ULONG_MAX ->
  let query := Call getiv [CInt (to_uint id); CInt GL_INFO_LOG_LENGTH] in
  let log_len := to_int (glGetiv_result E (trace w) getiv [to_uint id; GL_INFO_LOG_LENGTH] 0) in
  let size := to_ulong (to_int (log_len + 10)) in
  let p := alloc_addr E (allocs w) in
  size <= PY_SSIZE_T_MAX ->
  alloc_ok E (allocs w) = true ->
  p <> 0 ->
  let alloc := MemAlloc p size in
  let call := Call fetch [GLuint id; GLsizei log_len; CPtr p] in
  let reply := glGetInfoLog_result E (alloc :: query :: trace w) fetch
                 (to_uint id) (to_int log_len) log_len (fun _ => x00%byte) in
  let written := to_int (fst reply) in
  let r := fst (GL_METHODS E m (PyLong id) w) in
  let w' := snd (GL_METHODS E m (PyLong id) w) in
  trace w' = MemFree p :: call :: alloc :: query :: trace w /\
  (0 <= log_len <= INT_MAX - 10 -> size = log_len + 10) /\
  (0 <= written ->
   alloc_ok E (S (allocs w)) = true ->
   r = Some (PyBytes (read_bytes (snd reply) (Z.to_nat written)))) /\
  (written = 0 ->
   alloc_ok E (S (allocs w)) = true ->
   r = Some (PyBytes [])).
Proof.
  intros Hm Hid query log_len size p Hsize Halloc Hp alloc call reply written r w'.
  subst r w'. rewrite (info_log_operation_is_InfoLog E m getiv fetch Hm).
  assert (Hrun :
    InfoLog E getiv fetch (PyLong id) w =
    (let '(ans, w2) :=
       PyBytes_FromStringAndSize E (snd reply) written
         (emit call (emit alloc (bump (emit query w)))) in
     match ans with
     | inl a | inr a => (a, emit (MemFree p) w2)
     end)).
  { unfold InfoLog, body, bind at 1, PyLong_AsUnsignedLong, raise_from.
    rewrite as_unsigned_long_in_range by assumption. cbn [fst snd].
    unfold glGetiv at 1, history, gl, tell, bind at 1 2 3, ret. cbv beta iota.
    cbn [map]. world_simpl. fold query. fold log_len. fold size.
    unfold bind at 1, PyMem_Calloc. cbn [Z.eqb orb].
    rewrite Z.div_1_r.
    destruct (Z.leb_spec size PY_SSIZE_T_MAX) as [_|]; [|lia].
    unfold PyMem_Malloc. rewrite Z.mul_1_r.
    destruct (Z.ltb_spec PY_SSIZE_T_MAX size) as [|_]; [lia|].
    world_simpl. rewrite Halloc. fold p.
    destruct (Z.eqb_spec p 0) as [|_]; [contradiction|]. cbn [andb negb].
    destruct (Z.eqb_spec p 0) as [|_]; [contradiction|].
    unfold glGetInfoLog, history, gl, tell, bind at 1 2 3 4, ret. cbv beta iota.
    world_simpl. fold alloc. fold call. fold reply.
    destruct reply as [len buf'] eqn:Hreply. cbn [fst snd] in *. fold written.
    unfold bind at 1.
    unfold PyBytes_FromStringAndSize, PyErr_SetString, new_object, bind, ret.
    destruct (written <? 0); [reflexivity|]. world_simpl.
    destruct (alloc_ok E (S (allocs w))); reflexivity. }
  rewrite Hrun. clear Hrun.
  split.
  { unfold PyBytes_FromStringAndSize, PyErr_SetString, new_object, bind, ret.
    destruct (written <? 0); [reflexivity|]. world_simpl.
    destruct (alloc_ok E (S (allocs w))); reflexivity. }
  split.
  { intros Hlen. unfold size, to_ulong, to_int, ULONG_MOD, UINT_MOD, INT_MAX in *.
    rewrite (Z.mod_small (log_len + 10 + 2 ^ 31)) by lia.
    rewrite Z.mod_small by lia. lia. }
  assert (Hbytes :
    0 <= written -> alloc_ok E (S (allocs w)) = true ->
    fst (let '(ans, w2) :=
           PyBytes_FromStringAndSize E (snd reply) written
             (emit call (emit alloc (bump (emit query w)))) in
         match ans with
         | inl a | inr a => (a, emit (MemFree p) w2)
         end) = Some (PyBytes (read_bytes (snd reply) (Z.to_nat written)))).
  { intros Hw Hok. unfold PyBytes_FromStringAndSize, new_object.
    destruct (Z.ltb_spec written 0) as [|_]; [lia|]. world_simpl.
    rewrite Hok. reflexivity. }
  split; [exact Hbytes|].
  intros Hzero Hok. rewrite Hbytes by (assumption || lia).
  rewrite Hzero. reflexivity.
Qed.

Lemma info_log_retrieval_witness :
  fst (GL_METHODS quiet_env glGetShaderInfoLog (PyLong 5) module_load) = Some (PyBytes []) /\
  trace (snd (GL_METHODS quiet_env glGetShaderInfoLog (PyLong 5) module_load)) =
    [ MemFree 4096;
      Call "glGetShaderInfoLog" [CInt 5; CInt 0; CPtr 4096];
      MemAlloc 4096 10;
      Call "glGetShaderiv" [CInt 5; CInt GL_INFO_LOG_LENGTH] ].
Proof.
  destruct (info_log_retrieval quiet_env glGetShaderInfoLog "glGetShaderiv"
              "glGetShaderInfoLog" 5 module_load) as (Htrace & _ & _ & Hzero).
  - simpl; auto.
  - unfold ULONG_MAX; lia.
  - vm_compute; discriminate.
  - reflexivity.
  - vm_compute; discriminate.
  - split.
    + apply Hzero; reflexivity.
    + exact Htrace.
Defined.

(** ** Capability bootstrap *)

(** After a bootstrap that failed for a missing extension, Viewport still
    makes its native call, and succeeds once the caller has cleared the
    exception. *)
Lemma operation_runs_after_failed_bootstrap :
  let E := with_loader GLEW_OK false true quiet_env in
  let args := PyTuple [PyLong 0; PyLong 0; PyLong 640; PyLong 480] in
  let w1 := snd (GL_METHODS E glewInit Py_None module_load) in
  let w2 := snd (PyErr_Clear w1) in
  fst (GL_METHODS E glewInit Py_None module_load) = None /\
  error_indicator w1 = Some (missing_extension "texture_storage") /\
  In (Call "glViewport" [CInt 0; CInt 0; CInt 640; CInt 480])
     (trace (snd (GL_METHODS E glViewport args w1))) /\
  fst (GL_METHODS E glViewport args w2) = Some Py_None.
Proof.
  repeat split; try reflexivity. simpl; auto.
Qed.

(** C8 (amended). Where __APPLE__ is defined the bootstrap does nothing
    and succeeds.  Elsewhere it fails with a RuntimeError that names the
    condition when the loader fails to initialise and for each missing
    required extension (ARB_texture_storage, then
    ARB_texture_buffer_object_rgb32), and succeeds otherwise.  It keeps no
    record of the outcome: apart from the error indicator and the trace,
    the state of the layer is what it was. *)
Theorem capability_bootstrap (E : Env) (w : world) :
  let r := fst (_glewInit E w) in
  let w' := snd (_glewInit E w) in
  let err := glewInit_result E (trace w) in
  (APPLE E = true -> _glewInit E w = (Some Py_None, w)) /\
  (APPLE E = false -> err <> GLEW_OK ->
   r = None /\
   error_indicator w' =
     Some (PyExc_RuntimeError, "GLEW init failed: " ++ glewGetErrorString E err)) /\
  (APPLE E = false -> err = GLEW_OK -> GLEW_ARB_texture_storage E = false ->
   r = None /\ error_indicator w' = Some (missing_extension "texture_storage")) /\
  (APPLE E = false -> err = GLEW_OK -> GLEW_ARB_texture_storage E = true ->
   GLEW_ARB_texture_buffer_object_rgb32 E = false ->
   r = None /\ error_indicator w' = Some (missing_extension "texture_buffer_object_rgb32")) /\
  (APPLE E = false -> err = GLEW_OK -> GLEW_ARB_texture_storage E = true ->
   GLEW_ARB_texture_buffer_object_rgb32 E = true ->
   r = Some Py_None /\ error_indicator w' = error_indicator w) /\
  _enable_error_checking w' = _enable_error_checking w /\
  allocs w' = allocs w.
Proof.
  intros r w' err. subst r w' err.
  unfold _glewInit, ARB_TEST, fail_with, body.
  unfold_monad. world_simpl.
  destruct (APPLE E);
    destruct (Z.eqb_spec (glewInit_result E (trace w)) GLEW_OK) as [Herr | Herr];
    destruct (GLEW_ARB_texture_storage E);
    destruct (GLEW_ARB_texture_buffer_object_rgb32 E);
    cbn [negb]; world_simpl;
    repeat split; try reflexivity; intros; try discriminate; try contradiction.
Qed.

Lemma capability_bootstrap_witness :
  fst (_glewInit (with_loader GLEW_OK true false quiet_env) module_load) = None /\
  error_indicator (snd (_glewInit (with_loader GLEW_OK true false quiet_env) module_load)) =
    Some (missing_extension "texture_buffer_object_rgb32").
Proof.
  destruct (capability_bootstrap (with_loader GLEW_OK true false quiet_env) module_load)
    as (_ & _ & _ & H & _).
  apply H; reflexivity.
Defined.

(** ** The constant registry *)

Section Registry.

Variable E : Env.

Lemma GLC_all_published (cs : list (string * Z)) :
  forall module w,
    allocations_succeed E (allocs w) (List.length cs) ->
    GLC E cs module w = ((1, publish cs module), bump_by (List.length cs) w).
Proof.
  induction cs as [|[name value] cs IH]; intros module w Hok.
  - reflexivity.
  - cbn [GLC List.length bump_by publish fold_left fst snd].
    unfold PyModule_AddIntConstant.
    rewrite (Hok (allocs w)) by (cbn [List.length]; lia).
    cbn [Z.eqb negb].
    apply IH. intros k Hk. apply Hok. cbn [allocs bump List.length] in *. lia.
Qed.

Lemma GLC_aborts_at (cs : list (string * Z)) :
  forall k module w,
    (k < List.length cs)%nat ->
    allocations_succeed E (allocs w) k ->
    alloc_ok E (allocs w + k) = false ->
    GLC E cs module w =
      ((0, publish (firstn k cs) module),
       set_err (Some (PyExc_MemoryError, "")) (bump_by (S k) w)).
Proof.
  induction cs as [|[name value] cs IH]; intros k module w Hk Hok Hfail.
  - cbn [List.length] in Hk. lia.
  - cbn [GLC]. unfold PyModule_AddIntConstant.
    destruct k as [|k].
    + rewrite Nat.add_0_r in Hfail. rewrite Hfail. reflexivity.
    + rewrite (Hok (allocs w)) by lia. cbn [Z.eqb negb].
      cbn [firstn publish fold_left fst snd].
      apply (IH k (dict_set name value module) (bump w)).
      * cbn [List.length] in Hk. lia.
      * intros j Hj. apply Hok. cbn [allocs bump] in Hj. lia.
      * cbn [allocs bump]. rewrite <- Hfail. f_equal. lia.
Qed.

End Registry.

(** C9. One run of add_module_gl_constants publishes each name of its
    fixed table once, in order, and returns 1; when publishing a constant
    fails it sets MemoryError and returns 0 at once: the names before it
    are bound, no later name is attempted. *)
Theorem constant_registry_population (E : Env) (module : namespace) (w : world) :
  NoDup (map fst GLC_table) /\
  publish GLC_table [] = GLC_table /\
  (allocations_succeed E (allocs w) (List.length GLC_table) ->
   add_module_gl_constants E module w =
     ((1, publish GLC_table module), bump_by (List.length GLC_table) w)) /\
  (forall k,
     (k < List.length GLC_table)%nat ->
     allocations_succeed E (allocs w) k ->
     alloc_ok E (allocs w + k) = false ->
     add_module_gl_constants E module w =
       ((0, publish (firstn k GLC_table) module),
        set_err (Some (PyExc_MemoryError, "")) (bump_by (S k) w))).
Proof.
  split.
  { unfold GLC_table. cbn [map fst].
    repeat (constructor; [cbn [In]; intuition discriminate|]). constructor. }
  split; [vm_compute; reflexivity|].
  split.
  - apply GLC_all_published.
  - intros k. apply GLC_aborts_at.
Qed.

(** The allocator refuses the third request: two names are bound, 0 is
    returned and MemoryError is set. *)
Lemma constant_registry_population_witness :
  add_module_gl_constants (refusing_at 2 quiet_env) [] module_load =
    ((0, [("GL_VERSION", 0x1F02); ("GL_VENDOR", 0x1F00)]),
     set_err (Some (PyExc_MemoryError, "")) (bump_by 3 module_load)) /\
  fst (fst (add_module_gl_constants quiet_env [] module_load)) = 1.
Proof.
  destruct (constant_registry_population (refusing_at 2 quiet_env) [] module_load)
    as (_ & _ & _ & Hfail).
  destruct (constant_registry_population quiet_env [] module_load)
    as (_ & _ & Hall & _).
  split.
  - apply (Hfail 2%nat).
    + vm_compute. lia.
    + intros j Hj. cbn in Hj.
      destruct j as [|[|j]]; [reflexivity | reflexivity | lia].
    + reflexivity.
  - rewrite Hall; [reflexivity|]. intros j _. reflexivity.
Defined.

(** ** What every operation keeps *)

Lemma fill_tuple_null (E : Env) (arrays : nat -> Z) (todo : nat) :
  forall i ans w r w',
    fill_tuple E arrays todo i ans w = (r, w') ->
    (exists o, r = inl (Some o)) \/ (r = inl None /\ error_indicator w' <> None).
Proof.
  induction todo as [|todo IH]; intros i ans w r w'; cbn [fill_tuple].
  - unfold ret. intros H; inversion H; subst. left; eexists; reflexivity.
  - unfold bind, PyLong_FromUnsignedLong, new_object, PyErr_NoMemory, PyErr_SetString, ret.
    destruct (alloc_ok E (allocs w)); cbv beta iota.
    + apply IH.
    + intros H; inversion H; subst. right. split; [reflexivity | discriminate].
Qed.

Ltac use_fill_tuple_null :=
  match goal with
  | H : fill_tuple ?E ?a ?t ?i ?l ?w1 = (?r, ?w2) |- _ =>
      let Hn := fresh in
      destruct (fill_tuple_null E a t i l w1 r w2 H) as [[? Hn] | [Hn ?]];
      try congruence; try (inversion Hn; subst)
  end.

Lemma method_invariants (E : Env) (m : method) (args : PyObject) (w : world) :
  exists new,
    emitted (GL_METHODS E m args) w new /\
    (error_queries new <= 1)%nat /\
    leak_free new = true /\
    (never_checks m = true -> existsb is_error_query new = false) /\
    (m <> enable_automatic_opengl_error_checking ->
     _enable_error_checking (snd (GL_METHODS E m args w)) = _enable_error_checking w) /\
    (translates_unconditionally m = false ->
     died new = false ->
     fst (GL_METHODS E m args w) = None ->
     error_indicator (snd (GL_METHODS E m args w)) <> None).
Proof.
  unfold emitted.
  destruct m; cbn [GL_METHODS never_checks translates_unconditionally].
  all: run_body.
  all: try solve [exfalso;
                  match goal with
                  | H : _ && negb true = true |- _ => rewrite andb_false_r in H; discriminate H
                  end].
  all: try use_fill_tuple_null.
  all: try use_fill_tuple_frame.
  all: eexists; (split; [split_trace|]).
  all: split;
    [unfold error_queries;
     cbn [filter is_error_query List.length String.eqb Ascii.eqb Bool.eqb]; lia|].
  all: split;
    [unfold leak_free; cbn [rev app live_blocks filter];
     rewrite ?Z.eqb_refl; reflexivity|].
  all: split;
    [first [ discriminate
           | intros _; cbn [existsb is_error_query String.eqb Ascii.eqb Bool.eqb orb];
             reflexivity ]|].
  all: split; [first [reflexivity | intros Hne; congruence]|].
  all: try solve [intros; congruence].
  all: intros _ Hdied; discriminate Hdied.
Qed.

(** X1. At most one error is taken from the driver per call: no operation
    queries glGetError twice. *)
Theorem at_most_one_error_query (E : Env) (m : method) (args : PyObject) (w : world) :
  exists new,
    emitted (GL_METHODS E m args) w new /\ (error_queries new <= 1)%nat.
Proof.
  destruct (method_invariants E m args w) as (new & H1 & H2 & _).
  exists new. split; assumption.
Qed.

(** X2. Every raw block an operation allocates is freed before it returns,
    on every path. *)
Theorem raw_memory_is_released (E : Env) (m : method) (args : PyObject) (w : world) :
  exists new,
    emitted (GL_METHODS E m args) w new /\ leak_free new = true.
Proof.
  destruct (method_invariants E m args w) as (new & H1 & _ & H3 & _).
  exists new. split; assumption.
Qed.

(** X3. The toggle, glewInit, copy_image_sub_data and the two log functions
    never query the native error, also with the flag on. *)
Theorem unchecked_operations_never_query
  (E : Env) (m : method) (args : PyObject) (w : world) :
  never_checks m = true ->
  exists new,
    emitted (GL_METHODS E m args) w new /\ existsb is_error_query new = false.
Proof.
  intros Hm.
  destruct (method_invariants E m args w) as (new & H1 & _ & _ & H4 & _).
  exists new. split; [assumption | exact (H4 Hm)].
Qed.

Lemma unchecked_operations_never_query_witness :
  exists new,
    emitted (GL_METHODS (with_glGetError (fun _ => GL_OUT_OF_MEMORY) quiet_env)
               glGetProgramInfoLog (PyLong 3)) module_load new /\
    existsb is_error_query new = false.
Proof.
  apply unchecked_operations_never_query. reflexivity.
Defined.

(** X4. Only the toggle writes the error-checking flag. *)
Theorem only_the_toggle_writes_the_flag
  (E : Env) (m : method) (args : PyObject) (w : world) :
  m <> enable_automatic_opengl_error_checking ->
  _enable_error_checking (snd (GL_METHODS E m args w)) = _enable_error_checking w.
Proof.
  intros Hm.
  destruct (method_invariants E m args w) as (new & _ & _ & _ & _ & H5 & _).
  exact (H5 Hm).
Qed.

Lemma only_the_toggle_writes_the_flag_witness :
  _enable_error_checking
    (snd (GL_METHODS quiet_env glGenTextures (PyLong 300) (set_flag false module_load))) =
  false.
Proof.
  apply (only_the_toggle_writes_the_flag quiet_env glGenTextures (PyLong 300)
           (set_flag false module_load)).
  discriminate.
Defined.

(** X5. Apart from GetString and CreateProgram, an operation that returns
    NULL has set an exception.  A call in which the process dies does not
    return: it is left out. *)
Theorem null_result_has_exception
  (E : Env) (m : method) (args : PyObject) (w : world) :
  translates_unconditionally m = false ->
  died (trace (snd (GL_METHODS E m args w))) = false ->
  fst (GL_METHODS E m args w) = None ->
  error_indicator (snd (GL_METHODS E m args w)) <> None.
Proof.
  intros Hm Halive.
  destruct (method_invariants E m args w) as (new & Hnew & _ & _ & _ & _ & H6).
  apply (H6 Hm).
  unfold emitted in Hnew. rewrite Hnew in Halive.
  unfold died in *. rewrite existsb_app in Halive.
  apply orb_false_iff in Halive. exact (proj1 Halive).
Qed.

Lemma null_result_has_exception_witness :
  error_indicator (snd (GL_METHODS quiet_env glBindBuffer (PyTuple [PyLong 1]) module_load))
  <> None.
Proof.
  apply null_result_has_exception; reflexivity.
Defined.
(** ** Usage errors *)

(** X6. When the arguments of a METH_VARARGS function do not parse, it
    returns NULL with the parser's exception and has done nothing else. *)
Theorem parse_failure_stops_the_operation
  (E : Env) (m : method) (fs : list fmt) (args : PyObject) (e : pyerr) (w : world) :
  format_of m = Some fs ->
  parse_tuple args fs = inl e ->
  (m = glCopyImageSubData -> copy_image_available E = true) ->
  GL_METHODS E m args w = (None, set_err (Some e) w).
Proof.
  intros Hfmt Hparse Hcopy.
  destruct m; cbn [format_of] in Hfmt; try discriminate Hfmt;
    injection Hfmt as <-; cbn [GL_METHODS];
    unfold_api; unfold VertexAttribPointer_format in *;
    unfold body, PyArg_ParseTuple.
  all: try (rewrite Hparse; destruct e; reflexivity).
  specialize (Hcopy eq_refl). unfold copy_image_available in Hcopy.
  apply andb_true_iff in Hcopy. destruct Hcopy as [Hbuild Hext].
  apply negb_true_iff in Hbuild. rewrite Hbuild, Hext. cbn [negb].
  unfold bind at 1, ret at 1. cbv beta iota.
  unfold bind at 1. rewrite Hparse. destruct e; reflexivity.
Qed.

Lemma parse_failure_stops_the_operation_witness :
  GL_METHODS quiet_env glUniform1i (PyTuple [PyLong (2 ^ 31); PyLong 0]) module_load =
    (None,
     set_err (Some (PyExc_OverflowError, "signed integer is greater than maximum"))
       module_load).
Proof.
  apply (parse_failure_stops_the_operation quiet_env glUniform1i [fmt_i; fmt_i]).
  - reflexivity.
  - reflexivity.
  - discriminate.
Defined.

(** X7. Without glCopyImageSubData (not compiled in on Apple, or the
    extension missing) CopyImageSubData fails with RuntimeError before it
    looks at its arguments. *)
Theorem CopyImageSubData_unavailable (E : Env) (args : PyObject) (w : world) :
  copy_image_available E = false ->
  GL_METHODS E glCopyImageSubData args w =
    (None,
     set_err (Some (PyExc_RuntimeError,
                    "OpenGL is missing the required ARB_copy_image extension")) w).
Proof.
  unfold copy_image_available. cbn [GL_METHODS].
  unfold CopyImageSubData, body, fail_with, PyErr_SetString, bind, return_, ret.
  destruct (APPLE E), (HAVE_glCopyImageSubData E), (GLEW_ARB_copy_image E);
    cbn [andb negb]; intros H; try discriminate H; reflexivity.
Qed.

(** ** More on the batch allocators *)

(** X8. A count that is not an int between 0 and 256 (negative, too large or
    no int at all) is refused with the ValueError of the capacity test,
    which replaces the exception of the conversion; nothing else happens. *)
Theorem batch_count_out_of_range
  (E : Env) (m : method) (native : string) (val : PyObject) (w : world) :
  In (m, native) batch_allocators ->
  (forall n, val = PyLong n -> ~ 0 <= n <= 256) ->
  exists msg,
    GL_METHODS E m val w = (None, set_err (Some (PyExc_ValueError, msg)) w).
Proof.
  intros Hm Hval.
  destruct (batch_allocator_is_Gen E _ _ Hm) as [what Hgen]. rewrite Hgen.
  unfold Gen, body, bind at 1, PyLong_AsUnsignedLong, raise_from.
  assert (Hbig : (256 <? fst (as_unsigned_long val)) = true).
  { destruct val as [|n| | | |]; try reflexivity.
    unfold as_unsigned_long.
    destruct (Z.ltb_spec n 0); [reflexivity|].
    destruct (Z.ltb_spec ULONG_MAX n); [reflexivity|].
    cbn [fst]. apply Z.ltb_lt. specialize (Hval n eq_refl). lia. }
  destruct (snd (as_unsigned_long val)); rewrite Hbig;
    eexists; unfold fail_with, PyErr_SetString, bind, return_; reflexivity.
Qed.

Lemma batch_count_out_of_range_witness :
  exists msg,
    GL_METHODS quiet_env glGenBuffers (PyLong (-1)) module_load =
      (None, set_err (Some (PyExc_ValueError, msg)) module_load).
Proof.
  apply (batch_count_out_of_range quiet_env glGenBuffers "glGenBuffers").
  - simpl; auto.
  - intros n Hn. inversion Hn. lia.
Defined.

Lemma fill_tuple_out_of_memory (E : Env) (arrays : nat -> Z) (todo : nat) :
  forall k i ans w,
    (k < todo)%nat ->
    alloc_ok E (allocs w + k) = false ->
    fst (fill_tuple E arrays todo i ans w) = inl None /\
    error_indicator (snd (fill_tuple E arrays todo i ans w)) = Some (PyExc_MemoryError, "").
Proof.
  induction todo as [|todo IH]; intros k i ans w Hk Hfail; [lia|].
  cbn [fill_tuple].
  unfold bind, PyLong_FromUnsignedLong, new_object, PyErr_NoMemory, PyErr_SetString, ret.
  destruct (alloc_ok E (allocs w)) eqn:Hfirst; cbv beta iota.
  - destruct k as [|k]; [rewrite Nat.add_0_r in Hfail; congruence|].
    apply (IH k); [lia|]. cbn [allocs bump]. rewrite <- Hfail. f_equal. lia.
  - split; reflexivity.
Qed.

(** X9. When the host cannot allocate the result of a generator (the int,
    the tuple or one of its items), the generator returns NULL with
    MemoryError: a partly filled tuple is never returned. *)
Theorem batch_allocation_out_of_memory
  (E : Env) (m : method) (native : string) (n : Z) (k : nat) (w : world) :
  In (m, native) batch_allocators ->
  0 <= n <= 256 ->
  check_passes E w (Call native [GLsizei n] :: trace w) ->
  (k < (if (n =? 1)%Z then 1 else S (Z.to_nat n)))%nat ->
  alloc_ok E (allocs w + k) = false ->
  fst (GL_METHODS E m (PyLong n) w) = None /\
  error_indicator (snd (GL_METHODS E m (PyLong n) w)) = Some (PyExc_MemoryError, "").
Proof.
  intros Hm Hn Hcheck Hk Hfail.
  destruct (batch_allocator_is_Gen E _ _ Hm) as [what Hgen]. rewrite Hgen.
  cut (exists w2, Gen E native what (PyLong n) w = (None, w2) /\
                  error_indicator w2 = Some (PyExc_MemoryError, "")).
  { intros (w2 & -> & He). split; [reflexivity | exact He]. }
  unfold Gen, body, bind at 1, PyLong_AsUnsignedLong, raise_from.
  rewrite as_unsigned_long_in_range by (unfold ULONG_MAX; lia).
  cbn [fst snd].
  destruct (Z.ltb_spec 256 n); [lia|].
  assert (Hcontinue :
            forall c : unit -> Py PyRet,
              bind (CHECK_ERROR E) c (emit (Call native [GLsizei n]) w) =
              c tt (if _enable_error_checking w
                    then emit (Call "glGetError" []) (emit (Call native [GLsizei n]) w)
                    else emit (Call native [GLsizei n]) w)).
  { intros c. unfold CHECK_ERROR, SET_GL_ERR, glGetError. unfold_monad. world_simpl.
    destruct (_enable_error_checking w) eqn:Hflag; [|reflexivity].
    destruct Hcheck as [Hoff | [Hnone Hcode]]; [congruence|].
    world_simpl. rewrite Hcode. cbn [gl_error_exception Z.eqb GL_NO_ERROR].
    world_simpl. rewrite Hnone. reflexivity. }
  unfold history at 1, gl at 1, tell at 1. unfold bind at 1 2. cbv beta iota.
  rewrite Hcontinue.
  set (w1 := if _enable_error_checking w then _ else _).
  assert (Hallocs : allocs w1 = allocs w)
    by (subst w1; destruct (_enable_error_checking w); reflexivity).
  destruct (Z.eqb_spec n 1) as [-> | Hn1].
  - assert (k = 0%nat) by lia. subst k. rewrite Nat.add_0_r in Hfail.
    unfold PyLong_FromUnsignedLong, new_object, bind, return_.
    rewrite Hallocs, Hfail. eexists. split; reflexivity.
  - unfold PyTuple_New, new_object. unfold bind at 1. rewrite Hallocs.
    destruct (alloc_ok E (allocs w)) eqn:Htuple; cbv beta iota.
    + destruct k as [|k]; [rewrite Nat.add_0_r in Hfail; congruence|].
      unfold bind at 1.
      destruct (fill_tuple_out_of_memory E (generated E (trace w) native n)
                  (Z.to_nat n) k 0 [] (bump w1)) as [Hr He].
      * lia.
      * cbn [allocs bump]. rewrite Hallocs, <- Hfail. f_equal. lia.
      * destruct (fill_tuple _ _ _ _ _ _) as [r w2]. cbn [fst snd] in Hr, He.
        subst r. unfold return_. eexists. split; [reflexivity | exact He].
    + unfold PyErr_NoMemory, PyErr_SetString, bind, ret, return_.
      eexists. split; reflexivity.
Qed.

Lemma batch_allocation_out_of_memory_witness :
  fst (GL_METHODS (refusing_at 2 quiet_env) glGenTextures (PyLong 3) module_load) = None /\
  error_indicator
    (snd (GL_METHODS (refusing_at 2 quiet_env) glGenTextures (PyLong 3) module_load)) =
    Some (PyExc_MemoryError, "").
Proof.
  apply (batch_allocation_out_of_memory (refusing_at 2 quiet_env) glGenTextures
           "glGenTextures" 3 2 module_load).
  - simpl; auto.
  - lia.
  - right. split; reflexivity.
  - vm_compute. lia.
  - reflexivity.
Defined.

(** ** Unchecked conversions and direct translation *)

(** A failed conversion hands back -1, which the cast to a 32-bit
    unsigned argument turns into 0xFFFFFFFF. *)
Lemma failed_conversion_value (E : Env) (c : conversion) (o : PyObject) (e : pyerr) :
  snd (converted E c o) = Some e ->
  to_uint (fst (converted E c o)) = 4294967295.
Proof.
  destruct c; cbn [converted]; intros He.
  - destruct o; cbn [as_unsigned_long] in *; try reflexivity.
    destruct (z <? 0); [reflexivity|].
    destruct (ULONG_MAX <? z); [reflexivity | discriminate He].
  - assert (Hint : forall z, snd (long_of_int z) = Some e ->
                             to_uint (fst (long_of_int z)) = 4294967295).
    { intros z. unfold long_of_int.
      destruct ((z <? LONG_MIN) || (LONG_MAX <? z)); [reflexivity | discriminate]. }
    destruct o; cbn [as_long] in *; try (apply Hint; exact He);
      destruct (nb_int E _); try (apply Hint; exact He); reflexivity.
Qed.

(** X10. The functions that take one integer do not test its conversion:
    when the conversion of the argument raises an exception, the native
    call is made all the same, with 0xFFFFFFFF.  With the flag off the
    function then returns None although the exception is left set; with
    the flag on it returns NULL after the error query. *)
Theorem integer_conversion_is_not_checked
  (E : Env) (m : method) (f : string) (pre : list carg) (c : conversion)
  (o : PyObject) (e : pyerr) (w : world) :
  In (m, f, pre, c) single_integer_operations ->
  snd (converted E c o) = Some e ->
  let call := Call f (pre ++ [CInt 4294967295])%list in
  (_enable_error_checking w = false ->
   GL_METHODS E m o w = (Some Py_None, emit call (set_err (Some e) w))) /\
  (_enable_error_checking w = true ->
   fst (GL_METHODS E m o w) = None /\
   trace (snd (GL_METHODS E m o w)) = Call "glGetError" [] :: call :: trace w).
Proof.
  intros Hm He call. subst call.
  pose proof (failed_conversion_value E c o e He) as Hv.
  unfold single_integer_operations in Hm. cbn [In] in Hm.
  repeat (destruct Hm as [Hm | Hm]; [inversion Hm; subst; clear Hm|]); [..|contradiction].
  all: cbn [converted] in He, Hv.
  all: cbn [GL_METHODS app]; unfold_api; unfold_monad; rewrite He; world_simpl;
    unfold GLuint, GLenum; rewrite Hv.
  all: split; intros Hflag; rewrite Hflag; [reflexivity|].
  all: world_simpl;
    destruct (gl_error_exception _) as [[? ?]|]; world_simpl; split; reflexivity.
Qed.

(** DeleteTexture(None) with the flag off, and ActiveTexture(2**63). *)
Lemma integer_conversion_is_not_checked_witness :
  GL_METHODS quiet_env glDeleteTexture Py_None (set_flag false module_load) =
    (Some Py_None,
     emit (Call "glDeleteTextures" [CInt 1; CInt 4294967295])
       (set_err (Some (PyExc_TypeError, "an integer is required"))
          (set_flag false module_load))) /\
  GL_METHODS quiet_env glActiveTexture (PyLong (2 ^ 63)) (set_flag false module_load) =
    (Some Py_None,
     emit (Call "glActiveTexture" [CInt 4294967295])
       (set_err (Some (PyExc_OverflowError, "Python int too large to convert to C long"))
          (set_flag false module_load))).
Proof.
  split.
  - destruct (integer_conversion_is_not_checked quiet_env glDeleteTexture "glDeleteTextures"
                [CInt 1] AsUnsignedLong Py_None (PyExc_TypeError, "an integer is required")
                (set_flag false module_load)) as [Hoff _].
    + simpl; auto 12.
    + reflexivity.
    + apply Hoff. reflexivity.
  - destruct (integer_conversion_is_not_checked quiet_env glActiveTexture "glActiveTexture"
                [] AsLong (PyLong (2 ^ 63))
                (PyExc_OverflowError, "Python int too large to convert to C long")
                (set_flag false module_load)) as [Hoff _].
    + simpl; auto 15.
    + reflexivity.
    + apply Hoff. reflexivity.
Defined.

(** X11. GetString does not read the flag.  When the driver returns a string
    it is returned as bytes without any error query; when the driver
    returns NULL and reports GL_NO_ERROR, GetString returns NULL and leaves
    the error indicator as it was, so possibly without any exception. *)
Theorem GetString_outcomes (E : Env) (name : Z) (w : world) :
  0 <= name <= ULONG_MAX ->
  let call := Call "glGetString" [GLenum name] in
  let answer := glGetString_result E (trace w) (to_uint name) in
  (forall s, answer = Some s ->
     alloc_ok E (allocs w) = true ->
     GL_METHODS E glGetString (PyLong name) w = (Some (PyBytes s), bump (emit call w))) /\
  (answer = None ->
   gl_error_exception (to_uint (glGetError_result E (call :: trace w))) = None ->
   GL_METHODS E glGetString (PyLong name) w =
     (None, emit (Call "glGetError" []) (emit call w))).
Proof.
  intros Hname call answer. subst call answer.
  cbn [GL_METHODS]. unfold GetString, body, bind at 1, PyLong_AsUnsignedLong, raise_from.
  rewrite as_unsigned_long_in_range by assumption. cbn [fst snd].
  unfold_monad. world_simpl.
  split.
  - intros s Hs Halloc. rewrite Hs. world_simpl. rewrite Halloc. reflexivity.
  - intros Hs Hcode. rewrite Hs. world_simpl. rewrite Hcode. reflexivity.
Qed.

Lemma GetString_outcomes_witness :
  GL_METHODS (with_glGetString (fun _ _ => None) quiet_env) glGetString (PyLong 0x1F02)
    module_load =
  (None,
   emit (Call "glGetError" []) (emit (Call "glGetString" [GLenum 0x1F02]) module_load)) /\
  error_indicator
    (snd (GL_METHODS (with_glGetString (fun _ _ => None) quiet_env) glGetString
            (PyLong 0x1F02) module_load)) = None.
Proof.
  destruct (GetString_outcomes (with_glGetString (fun _ _ => None) quiet_env) 0x1F02
              module_load) as [_ Hnull].
  - unfold ULONG_MAX; lia.
  - split.
    + apply Hnull; reflexivity.
    + rewrite Hnull; reflexivity.
Defined.

(** X12. CreateProgram does not read the flag either.  A handle other than 0
    is returned without any error query; for the handle 0 with
    GL_NO_ERROR it returns NULL and leaves the error indicator as it was. *)
Theorem CreateProgram_outcomes (E : Env) (args : PyObject) (w : world) :
  let call := Call "glCreateProgram" [] in
  let handle := to_uint (glCreateProgram_result E (trace w)) in
  (handle <> 0 ->
   alloc_ok E (allocs w) = true ->
   GL_METHODS E glCreateProgram args w = (Some (PyLong handle), bump (emit call w))) /\
  (handle = 0 ->
   gl_error_exception (to_uint (glGetError_result E (call :: trace w))) = None ->
   GL_METHODS E glCreateProgram args w =
     (None, emit (Call "glGetError" []) (emit call w))).
Proof.
  intros call handle. subst call.
  cbn [GL_METHODS]. unfold CreateProgram. unfold_monad. world_simpl. fold handle.
  split.
  - intros Hh Halloc. destruct (Z.eqb_spec handle 0); [contradiction|].
    world_simpl. rewrite Halloc. reflexivity.
  - intros Hh Hcode. rewrite Hh. cbn [Z.eqb]. world_simpl. rewrite Hcode. reflexivity.
Qed.

Lemma CreateProgram_outcomes_witness :
  GL_METHODS (with_glGetError (fun _ => GL_INVALID_VALUE) quiet_env) glCreateProgram Py_None
    module_load =
  (Some (PyLong 1), bump (emit (Call "glCreateProgram" []) module_load)).
Proof.
  destruct (CreateProgram_outcomes (with_glGetError (fun _ => GL_INVALID_VALUE) quiet_env)
              Py_None module_load) as [Hok _].
  apply Hok; [discriminate | reflexivity].
Defined.

(** X13. CheckError with the flag off does nothing.  With the flag on it
    queries the driver once; it fails exactly when the driver reports an
    error or a host exception was already pending, and a driver error
    replaces the pending exception. *)
Theorem CheckError_outcomes (E : Env) (args : PyObject) (w : world) :
  let raised := gl_error_exception (to_uint (glGetError_result E (trace w))) in
  (_enable_error_checking w = false ->
   GL_METHODS E glCheckError args w = (Some Py_None, w)) /\
  (_enable_error_checking w = true ->
   trace (snd (GL_METHODS E glCheckError args w)) = Call "glGetError" [] :: trace w /\
   error_indicator (snd (GL_METHODS E glCheckError args w)) =
     match raised with
     | Some e => Some e
     | None => error_indicator w
     end /\
   (fst (GL_METHODS E glCheckError args w) = None <->
    raised <> None \/ error_indicator w <> None)).
Proof.
  intros raised. subst raised.
  cbn [GL_METHODS]. unfold CheckError. unfold_monad. world_simpl.
  split; intros Hflag; rewrite Hflag; [reflexivity|].
  world_simpl.
  destruct (gl_error_exception _) as [[e msg]|]; world_simpl.
  - split; [reflexivity | split; [reflexivity | split]].
    + intros _. left. discriminate.
    + reflexivity.
  - destruct (error_indicator w) as [pending|] eqn:Hp; world_simpl; rewrite ?Hp;
      (split; [reflexivity | split; [reflexivity | split]]).
    + intros _. right. discriminate.
    + reflexivity.
    + discriminate.
    + intros [H | H]; contradiction.
Qed.

Lemma CheckError_outcomes_witness :
  fst (GL_METHODS quiet_env glCheckError Py_None
         (set_err (Some (PyExc_TypeError, "pending")) module_load)) = None.
Proof.
  destruct (CheckError_outcomes quiet_env Py_None
              (set_err (Some (PyExc_TypeError, "pending")) module_load)) as [_ Hon].
  destruct Hon as (_ & _ & Hiff); [reflexivity|].
  apply Hiff. right. discriminate.
Defined.

(** ** Pointers, buffers and image copies *)

(** X14. Uniform3fv and MultiDrawArrays do not test the pointers they decode:
    a null pointer is passed on to the native call.  For MultiDrawArrays
    this is the run in which both pointers convert, the first to null. *)
Theorem unchecked_pointers_are_forwarded
  (E : Env) (items : list PyObject) (l : PyObject) (q : Z) (w : world) :
  (parses (PyTuple items) [fmt_i; fmt_I; fmt_O_PyLong] ->
   nth_error items 2 = Some l ->
   decodes_to_null l w ->
   exists new a,
     emitted (GL_METHODS E glUniform3fv (PyTuple items)) w new /\
     In (Call "glUniform3fv" (a ++ [CPtr 0])%list) new) /\
  (parses (PyTuple items) [fmt_i; fmt_O_PyLong; fmt_O_PyLong; fmt_I] ->
   nth_error items 1 = Some (PyLong 0) ->
   nth_error items 2 = Some (PyLong q) ->
   0 <= q < ULONG_MAX ->
   exists new mode count,
     emitted (GL_METHODS E glMultiDrawArrays (PyTuple items)) w new /\
     In (Call "glMultiDrawArrays" [mode; CPtr 0; CPtr q; count]) new /\
     died new = false).
Proof.
  split.
  - intros [vs Hparse] Hnth Hnull.
    cbn [GL_METHODS]. unfold emitted, Uniform3fv, body, PyArg_ParseTuple.
    rewrite Hparse; split_vals vs; invert_convert_all Hparse.
    pointer_is_null Hnth Hnull l w.
    assert (Htrace : trace w' = trace w) by (destruct Hw' as [-> | [e ->]]; reflexivity).
    cbv beta iota. unfold_monad; world_simpl.
    repeat (break_step; world_simpl).
    all: rewrite Htrace.
    all: eexists; eexists (_ :: _ :: nil);
      (split; [split_trace | cbn [app In]; auto]).
  - intros [vs Hparse] Hfirst Hsecond Hq.
    cbn [GL_METHODS]. unfold emitted, MultiDrawArrays, body, PyArg_ParseTuple.
    rewrite Hparse; split_vals vs; invert_convert_all Hparse.
    repeat match goal with
           | H : convert fmt_O_PyLong _ = inr _ |- _ => apply convert_O_PyLong in H; subst
           end.
    cbn [nth_error] in Hfirst, Hsecond.
    injection Hfirst as Hfirst. injection Hsecond as Hsecond. subst.
    assert (Hzero : as_long_or_unsigned_long (PyLong 0) = (0, None)) by reflexivity.
    assert (Hq' : as_long_or_unsigned_long (PyLong q) = (q, None)).
    { unfold as_long_or_unsigned_long, as_unsigned_long.
      destruct (Z.ltb_spec q 0); [lia|].
      destruct (Z.ltb_spec ULONG_MAX q); [lia | reflexivity]. }
    assert (Hptr : to_ulong 0 = 0) by reflexivity.
    assert (Hptr' : to_ulong q = q)
      by (unfold to_ulong, ULONG_MOD, ULONG_MAX in *; apply Z.mod_small; lia).
    assert (Hcmp : (0 =? ULONG_MAX) = false) by reflexivity.
    assert (Hcmp' : (q =? ULONG_MAX) = false) by (apply Z.eqb_neq; lia).
    unfold_monad. rewrite ?Hzero, ?Hq'. cbn [fst snd].
    rewrite ?Hptr, ?Hptr', ?Hcmp, ?Hcmp'. cbn [andb].
    world_simpl.
    repeat (break_step; world_simpl).
    all: do 3 eexists; (split; [split_trace | split; [cbn [In]; auto | reflexivity]]).
Qed.

(** Uniform3fv with the list pointer 0, and MultiDrawArrays(4, 0, 4096, 2). *)
Lemma unchecked_pointers_are_forwarded_witness :
  (exists new a,
    emitted (GL_METHODS quiet_env glUniform3fv (PyTuple [PyLong 2; PyLong 1; PyLong 0]))
      module_load new /\
    In (Call "glUniform3fv" (a ++ [CPtr 0])%list) new) /\
  (exists new mode count,
    emitted (GL_METHODS quiet_env glMultiDrawArrays
               (PyTuple [PyLong 4; PyLong 0; PyLong 4096; PyLong 2])) module_load new /\
    In (Call "glMultiDrawArrays" [mode; CPtr 0; CPtr 4096; count]) new /\
    died new = false).
Proof.
  split.
  - destruct (unchecked_pointers_are_forwarded quiet_env [PyLong 2; PyLong 1; PyLong 0]
                (PyLong 0) 0 module_load) as [H _].
    apply H.
    + eexists; reflexivity.
    + reflexivity.
    + reflexivity.
  - destruct (unchecked_pointers_are_forwarded quiet_env
                [PyLong 4; PyLong 0; PyLong 4096; PyLong 2]
                (PyLong 0) 4096 module_load) as [_ H].
    apply H.
    + eexists; reflexivity.
    + reflexivity.
    + reflexivity.
    + unfold ULONG_MAX; lia.
Defined.

(** X19. MultiDrawArrays converts its two pointers with the lock released.
    When one of them does not convert, the conversion raises without a
    thread state and the process dies there: the native call is not made
    and the lock is not taken again. *)
Theorem MultiDrawArrays_dies_on_bad_pointer
  (E : Env) (items : list PyObject) (a b : PyObject) (w : world) :
  parses (PyTuple items) [fmt_i; fmt_O_PyLong; fmt_O_PyLong; fmt_I] ->
  nth_error items 1 = Some a ->
  nth_error items 2 = Some b ->
  snd (as_long_or_unsigned_long a) <> None \/ snd (as_long_or_unsigned_long b) <> None ->
  exists new,
    emitted (GL_METHODS E glMultiDrawArrays (PyTuple items)) w new /\
    died new = true /\
    existsb (calls "glMultiDrawArrays") new = false /\
    ~ In RestoreThread new.
Proof.
  intros [vs Hparse] Hfirst Hsecond Hbad.
  cbn [GL_METHODS]. unfold emitted, MultiDrawArrays, body, PyArg_ParseTuple.
  rewrite Hparse; split_vals vs; invert_convert_all Hparse.
  repeat match goal with
         | H : convert fmt_O_PyLong _ = inr _ |- _ => apply convert_O_PyLong in H; subst
         end.
  cbn [nth_error] in Hfirst, Hsecond.
  injection Hfirst as Hfirst. injection Hsecond as Hsecond. subst.
  unfold_monad. world_simpl.
  repeat (break_step; world_simpl).
  all: try solve [exfalso; destruct Hbad as [Hbad | Hbad]; apply Hbad;
                  first [reflexivity | assumption]].
  all: eexists; (split; [split_trace|]).
  all: cbn [died existsb is_crash calls String.eqb Ascii.eqb Bool.eqb orb In].
  all: repeat split; try reflexivity; intros Hin; cbn [In] in Hin; intuition discriminate.
Qed.

(** MultiDrawArrays(4, 0, 2**64, 2). *)
Lemma MultiDrawArrays_dies_on_bad_pointer_witness :
  exists new,
    emitted (GL_METHODS quiet_env glMultiDrawArrays
               (PyTuple [PyLong 4; PyLong 0; PyLong (2 ^ 64); PyLong 2])) module_load new /\
    died new = true /\
    existsb (calls "glMultiDrawArrays") new = false /\
    ~ In RestoreThread new.
Proof.
  apply (MultiDrawArrays_dies_on_bad_pointer quiet_env
           [PyLong 4; PyLong 0; PyLong (2 ^ 64); PyLong 2] (PyLong 0) (PyLong (2 ^ 64))).
  - eexists; reflexivity.
  - reflexivity.
  - reflexivity.
  - right. discriminate.
Defined.

(** X15. NamedBufferData uses glNamedBufferData only where it is compiled in,
    the platform is not Apple and the loader reports OpenGL 4.5; then it
    leaves the buffer binding alone.  On the other path the last
    glBindBuffer it makes binds 0 to GL_TEXTURE_BUFFER again. *)
Theorem NamedBufferData_paths (E : Env) (args : PyObject) (w : world) :
  exists new,
    emitted (GL_METHODS E glNamedBufferData args) w new /\
    (APPLE E = true \/ HAVE_glNamedBufferData E = false \/ GLEW_VERSION_4_5 E = false ->
     existsb (calls "glNamedBufferData") new = false) /\
    (existsb (calls "glNamedBufferData") new = true ->
     existsb (calls "glBindBuffer") new = false) /\
    (existsb (calls "glBindBuffer") new = true ->
     find (calls "glBindBuffer") new =
       Some (Call "glBindBuffer" [GLenum GL_TEXTURE_BUFFER; GLuint 0])).
Proof.
  unfold emitted. cbn [GL_METHODS].
  run_body.
  all: try solve [exfalso;
                  match goal with
                  | H : _ && false = true |- _ => rewrite andb_false_r in H; discriminate H
                  end].
  all: eexists; (split; [split_trace|]).
  all: cbn [existsb find calls String.eqb Ascii.eqb Bool.eqb orb].
  all: repeat split; intros; try reflexivity; try discriminate.
  all: match goal with
       | H : _ && _ = true |- _ => apply andb_true_iff in H; destruct H
       end.
  all: repeat match goal with H : _ \/ _ |- _ => destruct H end; congruence.
Qed.


(** The run of copy_image_sub_data on sizes whose product N satisfies
    5 N < 2^32, when the block is granted at [p]. *)
Lemma copy_image_sub_data_run
  (E : Env) (src_target dest_target width height num_levels : Z) (w : world) :
  INT_MIN <= src_target <= INT_MAX ->
  INT_MIN <= dest_target <= INT_MAX ->
  0 <= width < 2 ^ 32 -> 0 <= height < 2 ^ 32 -> 0 <= num_levels < 2 ^ 32 ->
  let N := width * height * num_levels in
  let p := alloc_addr E (allocs w) in
  5 * N < 2 ^ 32 ->
  alloc_ok E (allocs w) = true ->
  0 < p < 2 ^ 64 -> p + 5 * N <= 2 ^ 64 ->
  let args := PyTuple [PyLong src_target; PyLong dest_target;
                       PyLong width; PyLong height; PyLong num_levels] in
  let bound :=
    [Call "glBindTexture" [GLenum GL_TEXTURE_2D_ARRAY; GLuint src_target];
     SaveThread; MemAlloc p (5 * N)] in
  exists w2,
    GL_METHODS E m_copy_image_sub_data args w = (Some Py_None, w2) /\
    trace w2 =
      ([MemFree p; RestoreThread;
        Call "glTexSubImage3D"
          [GLenum GL_TEXTURE_2D_ARRAY; GLint 0; GLint 0; GLint 0; GLint 0;
           GLsizei width; GLsizei height; GLsizei num_levels;
           GLenum GL_RED; GLenum GL_UNSIGNED_BYTE; CPtr (p + 4 * N)];
        HostMemory p
          (pixel_loop (4 * N) (Z.to_nat N) 0
             (glGetTexImage_result E (bound ++ trace w)%list));
        Call "glPixelStorei" [GLenum GL_UNPACK_ALIGNMENT; GLint 1];
        Call "glBindTexture" [GLenum GL_TEXTURE_2D_ARRAY; GLuint dest_target];
        Call "glGetTexImage"
          [GLenum GL_TEXTURE_2D_ARRAY; GLint 0; GLenum GL_RGBA; GLenum GL_UNSIGNED_BYTE;
           CPtr p]] ++ bound ++ trace w)%list.
Proof.
  intros Hs Hd Hw Hh Hl N p H5 Halloc Hp Hfit args bound. subst bound.
  assert (HN : 0 <= N) by (subst N; nia).
  assert (Hparse :
    parse_tuple args [fmt_i; fmt_i; fmt_I; fmt_I; fmt_I] =
    inr (src_target, (dest_target, (width, (height, (num_levels, tt)))))).
  { subst args. unfold parse_tuple. cbn [List.length Nat.eqb convert_all convert].
    unfold LONG_MIN, LONG_MAX, INT_MIN, INT_MAX, to_uint, UINT_MOD in *.
    repeat match goal with
           | |- context [(?a <? ?b) || (?c <? ?d)] =>
               destruct (Z.ltb_spec a b); [lia|]; destruct (Z.ltb_spec c d); [lia|];
               cbn [orb]
           | |- context [if ?a <? ?b then _ else _] =>
               destruct (Z.ltb_spec a b); [lia|]
           end.
    rewrite !Z.mod_small by lia. reflexivity. }
  cbn [GL_METHODS]. unfold copy_image_sub_data, body, PyArg_ParseTuple.
  rewrite Hparse. unfold bind at 1, ret at 1. cbv beta iota.
  unfold bind at 1, PyMem_Malloc.
  replace (to_uint (5 * width * height * num_levels)) with (5 * N)
    by (subst N; unfold to_uint, UINT_MOD; rewrite Z.mod_small by lia; lia).
  replace (to_uint (4 * width * height * num_levels)) with (4 * N)
    by (subst N; unfold to_uint, UINT_MOD; rewrite Z.mod_small by lia; lia).
  replace (to_uint (width * height * num_levels)) with N
    by (subst N; unfold to_uint, UINT_MOD; rewrite Z.mod_small by lia; lia).
  destruct (Z.ltb_spec PY_SSIZE_T_MAX (5 * N)) as [Hbig|_];
    [unfold PY_SSIZE_T_MAX in Hbig; lia|].
  rewrite Halloc. fold p.
  destruct (Z.eqb_spec p 0) as [|_]; [lia|]. cbn [andb negb]. cbv beta iota.
  destruct (Z.eqb_spec p 0) as [|_]; [lia|].
  replace (to_ulong (p + 4 * N)) with (p + 4 * N)
    by (unfold to_ulong, ULONG_MOD; rewrite Z.mod_small by lia; reflexivity).
  unfold_monad. world_simpl.
  eexists. split; reflexivity.
Qed.

(** X16. copy_image_sub_data uses one block for both images: for sizes whose
    product N satisfies 5 N < 2^32 it allocates 5 N bytes at [p], downloads
    to [p], uploads from [p + 4 N] and frees [p]; it returns None without
    any error check. *)
Theorem copy_image_sub_data_regions
  (E : Env) (src_target dest_target width height num_levels : Z) (w : world) :
  INT_MIN <= src_target <= INT_MAX ->
  INT_MIN <= dest_target <= INT_MAX ->
  0 <= width < 2 ^ 32 -> 0 <= height < 2 ^ 32 -> 0 <= num_levels < 2 ^ 32 ->
  let N := width * height * num_levels in
  let p := alloc_addr E (allocs w) in
  5 * N < 2 ^ 32 ->
  alloc_ok E (allocs w) = true ->
  0 < p < 2 ^ 64 -> p + 5 * N <= 2 ^ 64 ->
  let args := PyTuple [PyLong src_target; PyLong dest_target;
                       PyLong width; PyLong height; PyLong num_levels] in
  fst (GL_METHODS E m_copy_image_sub_data args w) = Some Py_None /\
  exists download upload between,
    trace (snd (GL_METHODS E m_copy_image_sub_data args w)) =
      (MemFree p :: RestoreThread ::
       Call "glTexSubImage3D" (upload ++ [CPtr (p + 4 * N)]) ::
       between ++
       Call "glGetTexImage" (download ++ [CPtr p]) ::
       Call "glBindTexture" [GLenum GL_TEXTURE_2D_ARRAY; GLuint src_target] ::
       SaveThread :: MemAlloc p (5 * N) :: trace w)%list.
Proof.
  intros Hs Hd Hw Hh Hl N p H5 Halloc Hp Hfit args.
  destruct (copy_image_sub_data_run E src_target dest_target width height num_levels w
              Hs Hd Hw Hh Hl H5 Halloc Hp Hfit) as (w2 & Hrun & Ht).
  fold N p args in Hrun, Ht. rewrite Hrun. cbn [fst snd].
  split; [reflexivity|].
  eexists (_ :: _ :: _ :: _ :: nil),
    (_ :: _ :: _ :: _ :: _ :: _ :: _ :: _ :: _ :: _ :: nil), (_ :: _ :: _ :: nil).
  rewrite Ht. reflexivity.
Qed.

Lemma copy_image_sub_data_regions_witness :
  fst (GL_METHODS quiet_env m_copy_image_sub_data
         (PyTuple [PyLong 1; PyLong 2; PyLong 4; PyLong 4; PyLong 2]) module_load) =
    Some Py_None /\
  In (MemAlloc 4096 160)
     (trace (snd (GL_METHODS quiet_env m_copy_image_sub_data
                    (PyTuple [PyLong 1; PyLong 2; PyLong 4; PyLong 4; PyLong 2])
                    module_load))).
Proof.
  assert (Hle : forall a b : Z, (a <=? b) = true -> a <= b) by (intros; now apply Z.leb_le).
  assert (Hlt : forall a b : Z, (a <? b) = true -> a < b) by (intros; now apply Z.ltb_lt).
  destruct (copy_image_sub_data_regions quiet_env 1 2 4 4 2 module_load)
    as [Hr (download & upload & between & Ht)].
  - split; apply Hle; reflexivity.
  - split; apply Hle; reflexivity.
  - split; [apply Hle | apply Hlt]; reflexivity.
  - split; [apply Hle | apply Hlt]; reflexivity.
  - split; [apply Hle | apply Hlt]; reflexivity.
  - apply Hlt; reflexivity.
  - reflexivity.
  - split; apply Hlt; reflexivity.
  - apply Hle; reflexivity.
  - split; [exact Hr|]. rewrite Ht. cbn [In app].
    right. right. right. apply in_or_app. right. cbn [In]. auto 6.
Defined.



Lemma CopyImageSubData_unavailable_witness :
  GL_METHODS (with_platform true true false true true quiet_env) glCopyImageSubData
    (PyTuple []) module_load =
  (None,
   set_err (Some (PyExc_RuntimeError,
                  "OpenGL is missing the required ARB_copy_image extension")) module_load).
Proof.
  apply CopyImageSubData_unavailable. reflexivity.
Defined.

(** ** More on log retrieval and the registry *)

(** X17. When the scratch buffer cannot be allocated (the size is out of
    range, or the allocator refuses or returns NULL), the log functions
    fail with MemoryError after the length query alone: the native fetch
    is not called and nothing is freed. *)
Theorem info_log_out_of_memory
  (E : Env) (m : method) (getiv fetch : string) (id : Z) (w : world) :
  In (m, getiv, fetch) info_log_operations ->
  0 <= id <= ULONG_MAX ->
  let query := Call getiv [CInt (to_uint id); CInt GL_INFO_LOG_LENGTH] in
  let log_len := to_int (glGetiv_result E (trace w) getiv [to_uint id; GL_INFO_LOG_LENGTH] 0) in
  let size := to_ulong (to_int (log_len + 10)) in
  PY_SSIZE_T_MAX < size \/ alloc_ok E (allocs w) = false \/ alloc_addr E (allocs w) = 0 ->
  fst (GL_METHODS E m (PyLong id) w) = None /\
  error_indicator (snd (GL_METHODS E m (PyLong id) w)) = Some (PyExc_MemoryError, "") /\
  trace (snd (GL_METHODS E m (PyLong id) w)) = query :: trace w.
Proof.
  intros Hm Hid query log_len size Hfail.
  rewrite (info_log_operation_is_InfoLog E m getiv fetch Hm).
  cut (exists w2, InfoLog E getiv fetch (PyLong id) w = (None, w2) /\
                  error_indicator w2 = Some (PyExc_MemoryError, "") /\
                  trace w2 = query :: trace w).
  { intros (w2 & -> & He & Ht). repeat split; assumption. }
  unfold InfoLog, body, bind at 1, PyLong_AsUnsignedLong, raise_from.
  rewrite as_unsigned_long_in_range by assumption. cbn [fst snd].
  unfold glGetiv at 1, history, gl, tell, bind at 1 2 3, ret. cbv beta iota.
  cbn [map]. world_simpl. fold query. fold log_len. fold size.
  unfold bind at 1, PyMem_Calloc. cbn [Z.eqb orb].
  rewrite Z.div_1_r.
  unfold PyErr_NoMemory, PyErr_SetString, bind, ret, return_.
  destruct (Z.leb_spec size PY_SSIZE_T_MAX) as [Hsmall|Hbig].
  - unfold PyMem_Malloc. rewrite Z.mul_1_r.
    destruct (Z.ltb_spec PY_SSIZE_T_MAX size) as [|_]; [lia|].
    world_simpl.
    destruct Hfail as [Hfail | [Hfail | Hfail]]; [lia | |].
    + rewrite Hfail. cbn [andb Z.eqb]. eexists. repeat split; reflexivity.
    + rewrite Hfail. cbn [Z.eqb negb]. rewrite andb_false_r. cbn [Z.eqb].
      eexists. repeat split; reflexivity.
  - cbn [Z.eqb]. eexists. repeat split; reflexivity.
Qed.

Lemma info_log_out_of_memory_witness :
  fst (GL_METHODS (refusing_at 0 quiet_env) glGetProgramInfoLog (PyLong 7) module_load) = None /\
  error_indicator
    (snd (GL_METHODS (refusing_at 0 quiet_env) glGetProgramInfoLog (PyLong 7) module_load)) =
    Some (PyExc_MemoryError, "") /\
  trace (snd (GL_METHODS (refusing_at 0 quiet_env) glGetProgramInfoLog (PyLong 7) module_load)) =
    [Call "glGetProgramiv" [CInt (to_uint 7); CInt GL_INFO_LOG_LENGTH]].
Proof.
  apply (info_log_out_of_memory (refusing_at 0 quiet_env) glGetProgramInfoLog
           "glGetProgramiv" "glGetProgramInfoLog" 7 module_load).
  - simpl; auto.
  - unfold ULONG_MAX; lia.
  - right. left. reflexivity.
Defined.

Lemma dict_get_set_same (k : string) (v : Z) (d : namespace) :
  dict_get k (dict_set k v d) = Some v.
Proof.
  induction d as [|[k' v'] d IH]; cbn [dict_set dict_get].
  - now rewrite String.eqb_refl.
  - destruct (String.eqb k k') eqn:Hk; cbn [dict_get].
    + now rewrite String.eqb_refl.
    + rewrite Hk. exact IH.
Qed.

Lemma dict_get_set_other (k k' : string) (v : Z) (d : namespace) :
  k <> k' -> dict_get k (dict_set k' v d) = dict_get k d.
Proof.
  intros Hne. apply String.eqb_neq in Hne.
  induction d as [|[k2 v2] d IH]; cbn [dict_set dict_get].
  - now rewrite Hne.
  - destruct (String.eqb k' k2) eqn:Hk; cbn [dict_get].
    + apply String.eqb_eq in Hk. subst k2. now rewrite Hne.
    + destruct (String.eqb k k2); [reflexivity | exact IH].
Qed.

Lemma publish_other (cs : list (string * Z)) :
  forall d k, ~ In k (map fst cs) -> dict_get k (publish cs d) = dict_get k d.
Proof.
  induction cs as [|[k' v'] cs IH]; intros d k Hk; [reflexivity|].
  cbn [publish fold_left fst snd]. cbn [map fst In] in Hk.
  change (dict_get k (publish cs (dict_set k' v' d)) = dict_get k d).
  rewrite IH by tauto. apply dict_get_set_other. intros ->. tauto.
Qed.

Lemma publish_bound (cs : list (string * Z)) :
  NoDup (map fst cs) ->
  forall d k v, In (k, v) cs -> dict_get k (publish cs d) = Some v.
Proof.
  induction cs as [|[k' v'] cs IH]; intros Hnd d k v Hin; [contradiction|].
  cbn [map fst] in Hnd. inversion Hnd as [|? ? Hfresh Hnd']; subst.
  change (dict_get k (publish cs (dict_set k' v' d)) = Some v).
  destruct Hin as [Heq | Hin].
  - inversion Heq; subst. rewrite publish_other by assumption. apply dict_get_set_same.
  - now apply IH.
Qed.

Lemma GLC_table_names_distinct : NoDup (map fst GLC_table).
Proof.
  unfold GLC_table. cbn [map fst].
  repeat (constructor; [cbn [In]; intuition discriminate|]). constructor.
Qed.

(** X18. After a successful run of add_module_gl_constants every name of the
    table is bound to its value, whatever the module held before, and
    every other name of the module keeps its binding. *)
Theorem published_constants_are_bound
  (E : Env) (module : namespace) (name : string) (w : world) :
  allocations_succeed E (allocs w) (List.length GLC_table) ->
  let module' := snd (fst (add_module_gl_constants E module w)) in
  (forall value, In (name, value) GLC_table -> dict_get name module' = Some value) /\
  (~ In name (map fst GLC_table) -> dict_get name module' = dict_get name module).
Proof.
  intros Hok module'. subst module'. unfold add_module_gl_constants.
  rewrite GLC_all_published by assumption. cbn [fst snd].
  split.
  - intros value Hin. now apply publish_bound; [apply GLC_table_names_distinct|].
  - apply publish_other.
Qed.

Lemma published_constants_are_bound_witness :
  dict_get "GL_TRIANGLES"
    (snd (fst (add_module_gl_constants quiet_env [("GL_TRIANGLES", 99); ("other", 1)]
                 module_load))) = Some 4 /\
  dict_get "other"
    (snd (fst (add_module_gl_constants quiet_env [("GL_TRIANGLES", 99); ("other", 1)]
                 module_load))) = Some 1.
Proof.
  destruct (published_constants_are_bound quiet_env [("GL_TRIANGLES", 99); ("other", 1)]
              "GL_TRIANGLES" module_load) as [Hbound _].
  { intros k _. reflexivity. }
  destruct (published_constants_are_bound quiet_env [("GL_TRIANGLES", 99); ("other", 1)]
              "other" module_load) as [_ Hkept].
  { intros k _. reflexivity. }
  split.
  - apply Hbound. cbn [GLC_table In]. auto 10.
  - rewrite Hkept; [reflexivity|].
    cbn [GLC_table map fst In]. intuition discriminate.
Defined.
